(** * scripts/download_surahs.py: a shallow embedding and its properties

    The script downloads the 114 surah recordings of one reciter.  It reads
    a manifest ([load_surahs]), scrapes the reciter page for the current
    download links ([discover_urls]), and streams every missing file to
    disk with a bounded retry loop ([download_file]); [main] ties the three
    together and yields the process exit code.

    The embedding is a state-and-exception monad over a [world] made of the
    files on disk and the trace of observable events (HTTP requests, sleeps,
    lines printed).  Everything outside the script (the manifest file, the
    network, [mkdir]) is an oracle collected in the record [env]. *)

From Stdlib Require Import ZArith Ascii String List Lia.
From Stdlib.Strings Require Import Byte.
From stdpp Require Import base option list gmap strings fin_maps.

Local Open Scope Z_scope.
Local Open Scope string_scope.
Local Open Scope list_scope.

(** ** Module-level constants *)

Definition RECITER_PAGE : string := "https://quranicaudio.com/quran/5".
Definition RETRY_LIMIT : Z := 3.
Definition CHUNK_SIZE : Z := Z.shiftl 1 15.

(** ** Exceptions

    Only classes derived from [Exception] are modelled.  [parent] is the
    direct base class; [LookupError] and [ArithmeticError] are skipped where
    no handler of the script names them. *)

Inductive exn_class :=
| Exception | OSError | URLError | HTTPError | RuntimeError
| HTTPException | KeyError | TypeError | ValueError | JSONDecodeError.

Global Instance exn_class_eq_dec : EqDecision exn_class.
Proof. solve_decision. Defined.

Definition parent (c : exn_class) : option exn_class :=
  match c with
  | Exception => None
  | OSError => Some Exception
  | URLError => Some OSError
  | HTTPError => Some URLError
  | RuntimeError => Some Exception
  | HTTPException => Some Exception
  | KeyError => Some Exception
  | TypeError => Some Exception
  | ValueError => Some Exception
  | JSONDecodeError => Some ValueError
  end.

Fixpoint issubclass_upto (depth : nat) (c base : exn_class) : bool :=
  bool_decide (c = base) ||
  match depth, parent c with
  | S d, Some p => issubclass_upto d p base
  | _, _ => false
  end.

(** The hierarchy above is at most four levels deep. *)
Definition issubclass (c base : exn_class) : bool := issubclass_upto 4 c base.

(** The text of an exception or of a printed line.  The f-strings of the
    script are kept as constructors carrying the interpolated values, so
    that no number formatting has to be modelled. *)
Inductive message :=
| Text (s : string)
| MsgHTTPStatus (status : Z)                       (* HTTP {response.status} *)
| MsgFailedDownload (url : string) (cause : message)
                                                   (* Failed to download {url}: {exc} *)
| MsgTooFewLinks (found : nat)                     (* Expected at least 114 ...; found {len(urls)}. *)
| MsgUnableToDiscover (cause : message)            (* Unable to discover MP3 URLs: {exc} *)
| MsgRetry (attempt limit : Z) (url : string) (cause : message) (sleep_seconds : Z)
                                                   (* Retry {attempt}/{RETRY_LIMIT} for {url} ... *)
| MsgAllPresent                                    (* All surah files already present. ... *)
| MsgDownloading (total : nat)                     (* Downloading {total} surah MP3 files ... *)
| MsgNoUrl (number : Z)                            (* No download URL discovered for surah {number:03d}; skipping. *)
| MsgProgress (index total : nat) (filename url : string)
                                                   (* [{index}/{total}] {filename} <- {url} *)
| MsgErrorDownloading (filename : string) (cause : message)
                                                   (* Error downloading {filename}: {exc} *)
| MsgCompleted.                                    (* Download completed successfully. *)

Record exn := Exn { exn_cls : exn_class; exn_msg : message }.

Definition isinstance (e : exn) (base : exn_class) : bool :=
  issubclass (exn_cls e) base.

(** ** Values decoded from JSON

    [json.loads] yields [None], booleans, integers, strings, lists and
    dicts; floating-point numbers are left out of the model. *)

#[warnings="-register-all"]
Inductive pyval :=
| PNone
| PBool (b : bool)
| PInt (n : Z)
| PStr (s : string)
| PList (l : list pyval)
| PDict (kv : list (string * pyval)).

Inductive outcome (A : Type) :=
| Ok (a : A)
| Raise (e : exn).
Arguments Ok {A} a.
Arguments Raise {A} e.

(** ** The discovery pattern

    The pattern of [discover_urls] reads: the literal https://, then lazily
    one or more characters other than the double and the single quote, then
    a slash, a captured group of three digits 0-9, and the literal .mp3.
    The page text is a [string]; the pattern tells apart only ASCII
    characters (the two quotes, the digits and its literals), every other
    character is just one more member of the negated class. *)

Definition is_quote (c : ascii) : bool :=
  bool_decide (c = "034"%char) || bool_decide (c = "'"%char).

Definition is_digit (c : ascii) : bool :=
  (48 <=? nat_of_ascii c)%nat && (nat_of_ascii c <=? 57)%nat.

Definition digit_val (c : ascii) : Z := Z.of_nat (nat_of_ascii c) - 48.

(** [strip_prefix p s]: the rest of [s] after the literal [p], if [s]
    starts with [p]. *)
Fixpoint strip_prefix (p s : string) : option string :=
  match p, s with
  | EmptyString, _ => Some s
  | String a p', String b s' =>
      if bool_decide (a = b) then strip_prefix p' s' else None
  | String _ _, EmptyString => None
  end.

(** The tail of the pattern (slash, three digits, .mp3): on success the
    captured group and the text after the match. *)
Definition match_tail (s : string) : option (string * string) :=
  match s with
  | String c (String d1 (String d2 (String d3 rest))) =>
      if bool_decide (c = "/"%char) && is_digit d1 && is_digit d2 && is_digit d3 then
        match strip_prefix ".mp3" rest with
        | Some rest' => Some (String d1 (String d2 (String d3 EmptyString)), rest')
        | None => None
        end
      else None
  | _ => None
  end.

(** The lazy negated class followed by the tail: one character of the
    class is consumed, then the tail is tried; only when the tail fails is
    one more character consumed.  [n] counts the characters consumed so
    far.  The result is the length of the lazy part and the captured
    group. *)
Fixpoint match_lazy (n : nat) (s : string) : option (nat * string) :=
  match s with
  | EmptyString => None
  | String c s' =>
      if is_quote c then None
      else match match_tail s' with
           | Some (g, _) => Some (S n, g)
           | None => match_lazy (S n) s'
           end
  end.

(** A match object: where it starts, [group(0)] and [group(1)]. *)
Record re_match := ReMatch { m_start : nat; group0 : string; group1 : string }.

(** Length of the literal parts: the scheme, and the slash, digits and
    extension. *)
Definition scheme_len : nat := 8.
Definition tail_len : nat := 8.

Definition take_string (n : nat) (s : string) : string := substring 0 n s.

(** The pattern tried at the start of [s], which sits at offset [pos] of
    the page. *)
Definition match_here (pos : nat) (s : string) : option re_match :=
  match strip_prefix "https://" s with
  | None => None
  | Some s1 =>
      match match_lazy 0 s1 with
      | None => None
      | Some (k, g) =>
          Some (ReMatch pos (take_string (scheme_len + k + tail_len) s) g)
      end
  end.

(** [pattern.finditer(html)]: the matches from left to right, without
    overlap.  After a match the scan resumes where the match ended, which
    the structural recursion below does by skipping [skip] characters. *)
Fixpoint finditer_from (skip pos : nat) (s : string) : list re_match :=
  match s with
  | EmptyString => []
  | String _ s' =>
      match skip with
      | S k => finditer_from k (S pos) s'
      | O =>
          match match_here pos s with
          | Some m => m :: finditer_from (String.length (group0 m) - 1) (S pos) s'
          | None => finditer_from 0 (S pos) s'
          end
      end
  end.

Definition finditer (html : string) : list re_match := finditer_from 0 0 html.

(** [int(match.group(1))] on a group of ASCII digits. *)
Fixpoint int_of_digits (acc : Z) (s : string) : Z :=
  match s with
  | EmptyString => acc
  | String c s' => int_of_digits (10 * acc + digit_val c) s'
  end.

Definition match_num (m : re_match) : Z := int_of_digits 0 (group1 m).

(** The loop [for match in pattern.finditer(html): urls[num] = match.group(0)]. *)
Definition record_match (urls : gmap Z string) (m : re_match) : gmap Z string :=
  <[match_num m := group0 m]> urls.

Definition collect_urls (html : string) : gmap Z string :=
  foldl record_match ∅ (finditer html).

(** What a match of the pattern looks like: a link made of the scheme,
    a non-empty part free of quotes, a slash, three digits and the
    extension; its key is the number the digits spell. *)
Fixpoint string_forall (p : ascii -> bool) (s : string) : bool :=
  match s with
  | EmptyString => true
  | String c s' => p c && string_forall p s'
  end.

Definition not_quote (c : ascii) : bool := negb (is_quote c).

Definition is_link (url : string) (key : Z) : Prop :=
  exists mid d1 d2 d3,
    mid <> EmptyString /\
    string_forall not_quote mid = true /\
    is_digit d1 = true /\ is_digit d2 = true /\ is_digit d3 = true /\
    url = "https://" +:+ mid +:+ "/" +:+ String d1 (String d2 (String d3 ".mp3")) /\
    key = 100 * digit_val d1 + 10 * digit_val d2 + digit_val d3.

(** The match sits in the page at its start offset. *)
Definition occurs_at (html : string) (m : re_match) : Prop :=
  exists before after,
    html = before +:+ group0 m +:+ after /\ String.length before = m_start m.

(** Matches listed from left to right without overlap, none starting
    before offset [from]. *)
Fixpoint in_document_order (from : nat) (ms : list re_match) : Prop :=
  match ms with
  | [] => True
  | m :: ms' =>
      (from <= m_start m)%nat /\
      in_document_order (m_start m + String.length (group0 m)) ms'
  end.

(** The last match for a key, if the key was matched at all. *)
Definition last_match (key : Z) (ms : list re_match) : option re_match :=
  last (List.filter (fun m => bool_decide (match_num m = key)) ms).

(** ** The world and the outside

    A response body is the sequence of results of the successive reads on
    it: chunks of data, possibly ended by an exception.  Running off the
    sequence, like an empty chunk, is end-of-data. *)

Inductive read_result :=
| Data (chunk : list byte)
| Fault (e : exn).

Inductive open_result :=
| OpenRaises (e : exn)
| Opened (status : Z) (stream : list read_result).

(** What the script observes or causes, in the order it happens.  A request
    made by [download_file] carries the destination it is streamed into;
    the request for the reciter page carries none. *)
Inductive event :=
| HttpGet (url : string) (into : option string)
| Sleep (seconds : Z)
| Stdout (m : message)
| Stderr (m : message).

Global Instance event_inhabited : Inhabited event := populate (Sleep 0).

Record world := World {
  files : gmap string (list byte);     (* regular files, by path *)
  trace : list event;
}.

(** The outside of one run: the result of reading and parsing the manifest,
    of creating the audio directory, and the answer of the network to the
    n-th request of the run (counted from 0) for a given URL. *)
Record env := Env {
  manifest_json : outcome pyval;
  mkdir_raises : option exn;
  http : nat -> string -> open_result;
}.

Definition is_request (ev : event) : bool :=
  match ev with HttpGet _ _ => true | _ => false end.

Definition count_requests (t : list event) : nat :=
  length (List.filter is_request t).

(** ** The monad: state passing with exceptions *)

Definition M (A : Type) : Type := world -> outcome A * world.

Definition ret {A} (a : A) : M A := fun w => (Ok a, w).

Definition raise {A} (e : exn) : M A := fun w => (Raise e, w).

Definition bind {A B} (m : M A) (k : A -> M B) : M B :=
  fun w =>
    match m w with
    | (Ok a, w') => k a w'
    | (Raise e, w') => (Raise e, w')
    end.

Notation "x <- m ;; k" := (bind m (fun x => k))
  (at level 100, m at next level, right associativity).
Notation "m ;; k" := (bind m (fun _ => k))
  (at level 100, right associativity).

(** [try: body except classes as exc: handler exc] *)
Definition try_except {A} (body : M A) (catches : exn -> bool)
    (handler : exn -> M A) : M A :=
  fun w =>
    match body w with
    | (Ok a, w') => (Ok a, w')
    | (Raise e, w') => if catches e then handler e w' else (Raise e, w')
    end.

Definition lift {A} (o : outcome A) : M A := fun w => (o, w).

Definition emit (ev : event) : M unit :=
  fun w => (Ok tt, World (files w) (trace w ++ [ev])).

Definition print_out (m : message) : M unit := emit (Stdout m).
Definition print_err (m : message) : M unit := emit (Stderr m).
Definition sleep (seconds : Z) : M unit := emit (Sleep seconds).

(** [request.urlopen(Request(url, headers=...))] *)
Definition urlopen (e : env) (url : string) (into : option string)
    : M (Z * list read_result) :=
  fun w =>
    let w' := World (files w) (trace w ++ [HttpGet url into]) in
    match http e (count_requests (trace w)) url with
    | OpenRaises exc => (Raise exc, w')
    | Opened status stream => (Ok (status, stream), w')
    end.

(** [destination.open("wb")]: the file is created, or truncated. *)
Definition open_wb (path : string) : M unit :=
  fun w => (Ok tt, World (<[path := []]> (files w)) (trace w)).

(** [fh.write(chunk)] *)
Definition fh_write (path : string) (chunk : list byte) : M unit :=
  fun w => (Ok tt, World (alter (fun old => (old ++ chunk)%list) path (files w)) (trace w)).

(** [path.exists()] *)
Definition path_exists (path : string) : M bool :=
  fun w => (Ok (bool_decide (is_Some (files w !! path))), w).

(** [path.unlink(missing_ok=True)] *)
Definition unlink (path : string) : M unit :=
  fun w => (Ok tt, World (delete path (files w)) (trace w)).

(** ** [outcome] as a monad of its own, for the code without effects *)

Global Instance outcome_ret : MRet outcome := fun _ a => Ok a.
Global Instance outcome_bind : MBind outcome := fun _ _ k o =>
  match o with Ok a => k a | Raise e => Raise e end.

(** ** load_surahs *)

Record surah := Surah { number : Z; filename : pyval }.

Definition type_error (what : string) : exn := Exn TypeError (Text what).

(** [for entry in data]: the items a decoded JSON value iterates over. *)
Definition py_iter (data : pyval) : outcome (list pyval) :=
  match data with
  | PList l => Ok l
  | PDict kv => Ok (map (fun p => PStr (fst p)) kv)
  | PStr s => Ok (map (fun c => PStr (String c EmptyString)) (list_ascii_of_string s))
  | PNone | PBool _ | PInt _ => Raise (type_error "object is not iterable")
  end.

Fixpoint assoc (key : string) (kv : list (string * pyval)) : option pyval :=
  match kv with
  | [] => None
  | (k, v) :: kv' => if bool_decide (k = key) then Some v else assoc key kv'
  end.

(** [entry[key]] with a string key. *)
Definition getitem (entry : pyval) (key : string) : outcome pyval :=
  match entry with
  | PDict kv =>
      match assoc key kv with
      | Some v => Ok v
      | None => Raise (Exn KeyError (Text key))
      end
  | PStr _ => Raise (type_error "string indices must be integers")
  | PList _ => Raise (type_error "list indices must be integers or slices")
  | PNone | PBool _ | PInt _ => Raise (type_error "object is not subscriptable")
  end.

Section Script.

(** The built-in [int] applied to a [str]: the integer the text denotes,
    or [None] where [int] raises [ValueError]. *)
Variable int_of_str : string -> option Z.

(** [AUDIO_DIR / filename]: the path of a file of the audio directory.
    [AUDIO_DIR] itself derives from the place of the script on disk. *)
Variable audio_path : string -> string.

Definition py_int (v : pyval) : outcome Z :=
  match v with
  | PInt n => Ok n
  | PBool b => Ok (if b then 1 else 0)
  | PStr s =>
      match int_of_str s with
      | Some n => Ok n
      | None => Raise (Exn ValueError (Text "invalid literal for int() with base 10"))
      end
  | PNone | PList _ | PDict _ =>
      Raise (type_error "int() argument must be a string, a bytes-like object or a real number")
  end.

Fixpoint load_entries (items : list pyval) : outcome (list surah) :=
  match items with
  | [] => Ok []
  | entry :: rest =>
      raw ← getitem entry "number";
      number ← py_int raw;
      filename ← getitem entry "audioFile";
      surahs ← load_entries rest;
      Ok (Surah number filename :: surahs)
  end.

Definition load_surahs (e : env) : M (list surah) :=
  lift (data ← manifest_json e; items ← py_iter data; load_entries items).

(** ** download_file *)

(** [range(lo, hi)] *)
Definition range (lo hi : Z) : list Z :=
  map (fun i => lo + Z.of_nat i) (seq 0 (Z.to_nat (hi - lo))).

(** The loop [while True: chunk = response.read(CHUNK_SIZE) ...]: each
    [Data] of the stream is what one such read returns. *)
Fixpoint copy_stream (destination : string) (stream : list read_result) : M unit :=
  match stream with
  | [] => ret tt
  | Data [] :: _ => ret tt
  | Data chunk :: rest => fh_write destination chunk ;; copy_stream destination rest
  | Fault exc :: _ => raise exc
  end.

(** The body of the [try] of one attempt, up to its [return]. *)
Definition attempt_body (e : env) (url destination : string) : M unit :=
  response <- urlopen e url (Some destination) ;;
  open_wb destination ;;
  if bool_decide (fst response ≠ 200)
  then raise (Exn RuntimeError (MsgHTTPStatus (fst response)))
  else copy_stream destination (snd response).

(** [except (error.URLError, error.HTTPError, RuntimeError)] *)
Definition caught_by_download (exc : exn) : bool :=
  isinstance exc URLError || isinstance exc HTTPError || isinstance exc RuntimeError.

(** The [for attempt in ...] loop.  The [try] yields [true] when its body
    reached [return], [false] when the handler ran to its end and the loop
    goes on. *)
Fixpoint download_attempts (e : env) (url destination : string)
    (attempts : list Z) : M unit :=
  match attempts with
  | [] => ret tt
  | attempt :: rest =>
      returned <-
        try_except
          (attempt_body e url destination ;; ret true)
          caught_by_download
          (fun exc =>
             present <- path_exists destination ;;
             (if present then unlink destination else ret tt) ;;
             if bool_decide (attempt = RETRY_LIMIT)
             then raise (Exn RuntimeError (MsgFailedDownload url (exn_msg exc)))
             else
               let sleep_seconds := 2 * attempt in
               print_err (MsgRetry attempt RETRY_LIMIT url (exn_msg exc) sleep_seconds) ;;
               sleep sleep_seconds ;;
               ret false) ;;
      if returned then ret tt else download_attempts e url destination rest
  end.

Definition download_file (e : env) (url destination : string) : M unit :=
  download_attempts e url destination (range 1 (RETRY_LIMIT + 1)).

(** What one attempt does with the answer of the network: the exception
    its body ends with, if any, what it has written by then, and the files
    it leaves behind. *)
Fixpoint stream_fault (stream : list read_result) : option exn :=
  match stream with
  | [] => None
  | Data [] :: _ => None
  | Data _ :: rest => stream_fault rest
  | Fault exc :: _ => Some exc
  end.

Fixpoint stream_written (stream : list read_result) : list byte :=
  match stream with
  | [] => []
  | Data [] :: _ => []
  | Data chunk :: rest => chunk ++ stream_written rest
  | Fault _ :: _ => []
  end.

Definition attempt_fault (r : open_result) : option exn :=
  match r with
  | OpenRaises exc => Some exc
  | Opened status stream =>
      if bool_decide (status ≠ 200)
      then Some (Exn RuntimeError (MsgHTTPStatus status))
      else stream_fault stream
  end.

Definition attempt_files (r : open_result) (destination : string)
    (fs : gmap string (list byte)) : gmap string (list byte) :=
  match r with
  | OpenRaises _ => fs
  | Opened status stream =>
      <[destination := if bool_decide (status ≠ 200) then [] else stream_written stream]> fs
  end.

(** The attempt ends with an exception that the handler of [download_file]
    catches: a [URLError] (of which [HTTPError] is a subclass) or a
    [RuntimeError] such as the one raised for a status other than 200. *)
Definition attempt_fails (r : open_result) : bool :=
  match attempt_fault r with
  | Some exc => caught_by_download exc
  | None => false
  end.


(** A request of [download_file] is streamed into its destination. *)
Definition targets (destination : string) (ev : event) : Prop :=
  match ev with
  | HttpGet _ into => into = Some destination
  | _ => True
  end.

(** ** discover_urls *)

(** [response.read()]: everything up to end-of-data. *)
Fixpoint read_all (stream : list read_result) : outcome (list byte) :=
  match stream with
  | [] => Ok []
  | Data [] :: _ => Ok []
  | Data chunk :: rest => tl ← read_all rest; Ok (chunk ++ tl)%list
  | Fault exc :: _ => Raise exc
  end.

(** [.decode("utf-8", errors="replace")].  The text is kept in its UTF-8
    encoding: the pattern tells apart only ASCII characters, which are
    single bytes there, so it finds the same links in the encoded text. *)
Definition decode (body : list byte) : string := string_of_list_byte body.

Definition discover_urls (e : env) : M (gmap Z string) :=
  response <- urlopen e RECITER_PAGE None ;;
  body <- lift (read_all (snd response)) ;;
  let html := decode body in
  let urls := collect_urls html in
  if bool_decide (size urls < 114)%nat
  then raise (Exn RuntimeError (MsgTooFewLinks (size urls)))
  else ret urls.

(** ** main *)

(** [AUDIO_DIR.mkdir(parents=True, exist_ok=True)] *)
Definition mkdir (e : env) : M unit :=
  match mkdir_raises e with
  | Some exc => raise exc
  | None => ret tt
  end.

(** [AUDIO_DIR / name]: only a [str] can be joined to a path. *)
Definition join_audio_dir (name : pyval) : outcome (string * string) :=
  match name with
  | PStr s => Ok (s, audio_path s)
  | _ => Raise (type_error "unsupported operand type(s) for /")
  end.

(** The comprehension
    [[entry for entry in surahs if not (AUDIO_DIR / entry["filename"]).exists()]] *)
Fixpoint select_missing (surahs : list surah) : M (list surah) :=
  match surahs with
  | [] => ret []
  | entry :: rest =>
      target <- lift (join_audio_dir (filename entry)) ;;
      present <- path_exists (snd target) ;;
      others <- select_missing rest ;;
      ret (if present then others else entry :: others)
  end.

(** The loop [for index, entry in enumerate(missing, start=1)].  It yields
    [Some code] when its body reached a [return code], [None] when it ran
    to its end. *)
Fixpoint download_loop (e : env) (url_map : gmap Z string) (total index : nat)
    (missing : list surah) : M (option Z) :=
  match missing with
  | [] => ret None
  | entry :: rest =>
      match url_map !! number entry with
      | None =>
          print_err (MsgNoUrl (number entry)) ;;
          ret (Some 1)
      | Some url =>
          target <- lift (join_audio_dir (filename entry)) ;;
          let destination := snd target in
          print_out (MsgProgress index total (fst target) url) ;;
          failed <-
            try_except
              (download_file e url destination ;; ret false)
              (fun exc => isinstance exc RuntimeError)
              (fun exc =>
                 print_err (MsgErrorDownloading (fst target) (exn_msg exc)) ;;
                 ret true) ;;
          if failed then ret (Some 1)
          else download_loop e url_map total (S index) rest
      end
  end.

Definition main (e : env) : M Z :=
  surahs <- load_surahs e ;;
  mkdir e ;;
  found <-
    try_except
      (url_map <- discover_urls e ;; ret (Some url_map))
      (fun exc => isinstance exc Exception)
      (fun exc =>
         print_err (MsgUnableToDiscover (exn_msg exc)) ;;
         ret None) ;;
  match found with
  | None => ret 1
  | Some url_map =>
      missing <- select_missing surahs ;;
      match missing with
      | [] =>
          print_out MsgAllPresent ;;
          ret 0
      | _ :: _ =>
          let total := length missing in
          print_out (MsgDownloading total) ;;
          code <- download_loop e url_map total 1 missing ;;
          match code with
          | Some c => ret c
          | None =>
              print_out MsgCompleted ;;
              ret 0
          end
      end
  end.

(** ** The script seen from outside

    [discovery] is the result of [discover_urls] as a function of the answer
    of the network to the page request; [missing_entries] is the result of
    the comprehension of [main] as a function of the files on disk. *)

Definition discovery (r : open_result) : outcome (gmap Z string) :=
  match r with
  | OpenRaises exc => Raise exc
  | Opened _ stream =>
      body ← read_all stream;
      let urls := collect_urls (decode body) in
      if bool_decide (size urls < 114)%nat
      then Raise (Exn RuntimeError (MsgTooFewLinks (size urls)))
      else Ok urls
  end.

Definition entry_present (fs : gmap string (list byte)) (entry : surah) : bool :=
  match filename entry with
  | PStr name => bool_decide (is_Some (fs !! audio_path name))
  | _ => false
  end.

Fixpoint missing_entries (fs : gmap string (list byte)) (surahs : list surah)
    : outcome (list surah) :=
  match surahs with
  | [] => Ok []
  | entry :: rest =>
      target ← join_audio_dir (filename entry);
      others ← missing_entries fs rest;
      Ok (if bool_decide (is_Some (fs !! snd target)) then others else entry :: others)
  end.

(** How the turn of the download loop for [entry] fails when it starts in
    world [w]: either no URL was discovered for its number, or
    [download_file] raises the [RuntimeError] of its last attempt.  The
    last argument is the world in which [main] then returns. *)
Inductive entry_failure (e : env) (url_map : gmap Z string) (total index : nat)
    (entry : surah) (w : world) : world -> Prop :=
| missing_url :
    url_map !! number entry = None ->
    entry_failure e url_map total index entry w
      (World (files w) (trace w ++ [Stderr (MsgNoUrl (number entry))]))
| download_error (url name : string) (exc : exn) (w' : world) :
    url_map !! number entry = Some url ->
    filename entry = PStr name ->
    download_file e url (audio_path name)
      (World (files w) (trace w ++ [Stdout (MsgProgress index total name url)]))
      = (Raise exc, w') ->
    isinstance exc RuntimeError = true ->
    entry_failure e url_map total index entry w
      (World (files w') (trace w' ++ [Stderr (MsgErrorDownloading name (exn_msg exc))])).

(** A request of the download loop is streamed into the file of one of the
    entries it was given. *)
Definition request_for (missing : list surah) (ev : event) : Prop :=
  match ev with
  | HttpGet _ into =>
      exists entry name,
        entry ∈ missing /\ filename entry = PStr name /\ into = Some (audio_path name)
  | _ => True
  end.

(** No request of the run is streamed into [path]. *)
Definition never_requested (path : string) (ev : event) : Prop :=
  match ev with
  | HttpGet _ into => into <> Some path
  | _ => True
  end.

(** ** Sample pages and manifests *)

Definition three_digits (n : nat) : string :=
  String (ascii_of_nat (48 + (n / 100) mod 10))
    (String (ascii_of_nat (48 + (n / 10) mod 10))
       (String (ascii_of_nat (48 + n mod 10)) EmptyString)).

Definition sample_link (n : nat) : string :=
  "https://download.example.org/quran/mishaari/" +:+ three_digits n +:+ ".mp3".

Fixpoint sample_page (keys : list nat) : string :=
  match keys with
  | [] => "</ul>"
  | n :: keys' => "<li><a href='" +:+ sample_link n +:+ "'>mp3</a></li>" +:+ sample_page keys'
  end.

Definition page_response (keys : list nat) : open_result :=
  Opened 200 [Data (list_byte_of_string (sample_page keys))].

Definition sample_manifest (entries : list (Z * string)) : outcome pyval :=
  Ok (PList (map (fun p => PDict [("number", PInt (fst p)); ("audioFile", PStr (snd p))]) entries)).

Definition url_error : exn := Exn URLError (Text "connection refused").

Definition empty_world : world := World ∅ [].

(** An instance of the two parameters of the script: [int] on strings of
    ASCII digits, and an audio directory relative to the repository. *)
Definition sample_int (s : string) : option Z :=
  match s with
  | EmptyString => None
  | String _ _ => if string_forall is_digit s then Some (int_of_digits 0 s) else None
  end.

Definition sample_path (name : string) : string :=
  "QuranMenubar/Resources/Audio/" +:+ name.

Definition three_entries : outcome pyval :=
  sample_manifest [(1, "001.mp3"); (2, "002.mp3"); (3, "003.mp3")].

Definition one_entry : outcome pyval := sample_manifest [(1, "001.mp3")].

(** The page lists three links only. *)
Definition env_few_links : env :=
  Env one_entry None (fun _ _ => page_response [1; 2; 3]%nat).

(** The network is down. *)
Definition env_offline : env :=
  Env one_entry None (fun _ _ => OpenRaises url_error).

(** The third request, and only the third, is answered. *)
Definition env_third_time : env :=
  Env one_entry None
    (fun n _ => match n with
                | 2%nat => Opened 200 [Data [x01; x02]; Data [x03]]
                | _ => OpenRaises url_error
                end).

(** The page lists the links 001 to 114 and every download is answered. *)
Definition env_online (manifest : outcome pyval) : env :=
  Env manifest None
    (fun n _ => match n with
                | O => page_response (seq 1 114)
                | _ => Opened 200 [Data [x49; x44; x33]]
                end).

(** The page lists 114 links, 001 and 003 to 115: none for surah 2. *)
Definition env_gap : env :=
  Env three_entries None
    (fun n _ => match n with
                | O => page_response (1%nat :: seq 3 113)
                | _ => Opened 200 [Data [x49; x44; x33]]
                end).

(** The page lists the links 000 to 113: none for surah 114. *)
Definition env_shifted : env :=
  Env (sample_manifest [(114, "114.mp3")]) None
    (fun _ _ => page_response (seq 0 114)).

(** The manifest is not valid JSON. *)
Definition env_bad_manifest : env :=
  Env (Raise (Exn JSONDecodeError (Text "Expecting value"))) None
    (fun _ _ => page_response (seq 1 114)).

(** The connection is reset in the middle of every body. *)
Definition env_reset : env :=
  Env one_entry None
    (fun _ _ => Opened 200 [Data [x49; x44]; Fault (Exn OSError (Text "Connection reset by peer"))]).

(** The file of surah 1 is on disk already. *)
Definition world_with_first : world :=
  World {[ sample_path "001.mp3" := [x49; x44; x33] ]} [].

(** The second item of the manifest has no audioFile field. *)
Definition env_missing_key : env :=
  Env (Ok (PList [PDict [("number", PInt 1); ("audioFile", PStr "001.mp3")];
                  PDict [("number", PInt 2)];
                  PNone]))
      None (fun _ _ => page_response (seq 1 114)).

(** The audioFile field of the second item is a number. *)
Definition env_bad_name : env :=
  Env (Ok (PList [PDict [("number", PInt 1); ("audioFile", PStr "001.mp3")];
                  PDict [("number", PInt 2); ("audioFile", PInt 2)]]))
      None (fun _ _ => page_response (seq 1 114)).

(** The reciter page has been requested, nothing else has happened. *)
Definition world_after_page : world := World ∅ [HttpGet RECITER_PAGE None].

(** Two refused connections, then a connection reset in the middle of the
    third body. *)
Definition env_reset_third : env :=
  Env one_entry None
    (fun n _ => match n with
                | 2%nat => Opened 200 [Data [x49; x44];
                                        Fault (Exn OSError (Text "Connection reset by peer"))]
                | _ => OpenRaises url_error
                end).


(** The page is served, then every body is cut by a connection reset. *)
Definition env_page_then_reset : env :=
  Env one_entry None
    (fun n _ => match n with
                | O => page_response (seq 1 114)
                | _ => Opened 200 [Data [x49; x44];
                                    Fault (Exn OSError (Text "Connection reset by peer"))]
                end).

(** ** Notions used by the further properties *)

(** [p] is a prefix of [s]. *)
Definition string_prefix (p s : string) : Prop := exists rest, s = p +:+ rest.

(** The match [m] extends over offset [p] of the page. *)
Definition covers (m : re_match) (p : nat) : Prop :=
  (m_start m <= p < m_start m + String.length (group0 m))%nat.

(** The entry [load_surahs] makes of one item of the manifest. *)
Definition loads_as (item : pyval) (s : surah) : Prop :=
  exists raw,
    getitem item "number" = Ok raw /\
    py_int raw = Ok (number s) /\
    getitem item "audioFile" = Ok (filename s).

Definition is_str (v : pyval) : Prop := exists name, v = PStr name.

(** A request for [url], streamed into [destination]. *)
Definition fetches (url destination : string) (ev : event) : Prop :=
  match ev with
  | HttpGet u into => u = url /\ into = Some destination
  | _ => True
  end.

(** * Properties *)

(** ** Strings *)

Lemma app_cons (a : ascii) (s1 s2 : string) :
  String a s1 +:+ s2 = String a (s1 +:+ s2).
Proof. reflexivity. Qed.

Lemma app_empty_l (s : string) : "" +:+ s = s.
Proof. reflexivity. Qed.

Lemma app_assoc_string (s1 s2 s3 : string) :
  (s1 +:+ s2) +:+ s3 = s1 +:+ (s2 +:+ s3).
Proof.
  induction s1 as [|a s1 IH]; [reflexivity|].
  rewrite !app_cons. by rewrite IH.
Qed.

Lemma length_app_string (s1 s2 : string) :
  String.length (s1 +:+ s2) = (String.length s1 + String.length s2)%nat.
Proof.
  induction s1 as [|a s1 IH]; [reflexivity|].
  rewrite app_cons. simpl. by rewrite IH.
Qed.

Lemma take_string_app (s1 s2 : string) :
  take_string (String.length s1) (s1 +:+ s2) = s1.
Proof.
  unfold take_string. induction s1 as [|a s1 IH].
  - simpl. by destruct s2.
  - rewrite app_cons. simpl. by rewrite IH.
Qed.

Lemma take_string_app_len (n : nat) (s1 s2 : string) :
  n = String.length s1 -> take_string n (s1 +:+ s2) = s1.
Proof. intros ->. apply take_string_app. Qed.

Lemma take_string_nonempty (n : nat) (c : ascii) (s : string) :
  (1 <= String.length (take_string (S n) (String c s)))%nat.
Proof. unfold take_string. simpl. lia. Qed.

Lemma strip_prefix_spec (p s r : string) :
  strip_prefix p s = Some r -> s = p +:+ r.
Proof.
  revert s. induction p as [|a p IH]; intros s H.
  - simpl in H. by inversion H.
  - destruct s as [|b s]; [done|]. simpl in H.
    case_bool_decide; [|done]. subst b.
    rewrite app_cons. f_equal. by apply IH.
Qed.

(** ** The pattern *)

Lemma match_tail_spec (s g r : string) :
  match_tail s = Some (g, r) ->
  exists d1 d2 d3,
    is_digit d1 = true /\ is_digit d2 = true /\ is_digit d3 = true /\
    g = String d1 (String d2 (String d3 "")) /\
    s = "/" +:+ String d1 (String d2 (String d3 ".mp3")) +:+ r.
Proof.
  unfold match_tail. intros H.
  destruct s as [|c0 [|d1 [|d2 [|d3 rest]]]]; try done.
  case_bool_decide as Hc; [subst c0|done].
  destruct (is_digit d1) eqn:H1; [|done].
  destruct (is_digit d2) eqn:H2; [|done].
  destruct (is_digit d3) eqn:H3; [|done].
  cbn [andb] in H.
  destruct (strip_prefix ".mp3" rest) as [rest'|] eqn:Hp; [|done].
  inversion H; subst. apply strip_prefix_spec in Hp. subst rest.
  exists d1, d2, d3. repeat split; done.
Qed.

Lemma match_lazy_spec (s : string) : forall (n k : nat) (g : string),
  match_lazy n s = Some (k, g) ->
  exists mid r d1 d2 d3,
    k = (n + String.length mid)%nat /\
    mid <> "" /\
    string_forall not_quote mid = true /\
    is_digit d1 = true /\ is_digit d2 = true /\ is_digit d3 = true /\
    g = String d1 (String d2 (String d3 "")) /\
    s = mid +:+ "/" +:+ String d1 (String d2 (String d3 ".mp3")) +:+ r.
Proof.
  induction s as [|c s IH]; intros n k g H; [done|].
  simpl in H. destruct (is_quote c) eqn:Hq; [done|].
  destruct (match_tail s) as [[g' r']|] eqn:Ht.
  - inversion H; subst.
    apply match_tail_spec in Ht as (d1 & d2 & d3 & ? & ? & ? & -> & ->).
    exists (String c ""), r', d1, d2, d3.
    repeat split; try done.
    + simpl. lia.
    + simpl. unfold not_quote. by rewrite Hq.
  - apply IH in H as (mid & r & d1 & d2 & d3 & -> & ? & Hm & ? & ? & ? & -> & ->).
    exists (String c mid), r, d1, d2, d3.
    repeat split; try done.
    + simpl. lia.
    + simpl. unfold not_quote at 1. by rewrite Hq, Hm.
Qed.

Lemma int_of_three_digits (d1 d2 d3 : ascii) :
  int_of_digits 0 (String d1 (String d2 (String d3 ""))) =
  100 * digit_val d1 + 10 * digit_val d2 + digit_val d3.
Proof. simpl. lia. Qed.

Lemma match_here_spec (pos : nat) (s : string) (m : re_match) :
  match_here pos s = Some m ->
  m_start m = pos /\
  is_link (group0 m) (match_num m) /\
  exists r, s = group0 m +:+ r.
Proof.
  unfold match_here. intros H.
  destruct (strip_prefix "https://" s) as [s1|] eqn:Hp; [|done].
  destruct (match_lazy 0 s1) as [[k g]|] eqn:Hl; [|done].
  injection H as <-. cbn [m_start group0 group1].
  apply strip_prefix_spec in Hp.
  apply match_lazy_spec in Hl
    as (mid & r & d1 & d2 & d3 & -> & ? & ? & ? & ? & ? & -> & ->).
  set (url := "https://" +:+ mid +:+ "/" +:+ String d1 (String d2 (String d3 ".mp3"))).
  assert (Hs : s = url +:+ r).
  { subst s url. rewrite !app_assoc_string. reflexivity. }
  assert (Hlen : (scheme_len + (0 + String.length mid) + tail_len)%nat = String.length url).
  { subst url. rewrite !length_app_string. reflexivity. }
  rewrite Hs, (take_string_app_len _ url r) by exact Hlen.
  split; [done|]. split; [|by exists r].
  exists mid, d1, d2, d3. unfold match_num. cbn [group1].
  rewrite int_of_three_digits. repeat split; done.
Qed.

Lemma in_document_order_mono (a b : nat) (ms : list re_match) :
  (b <= a)%nat -> in_document_order a ms -> in_document_order b ms.
Proof. destruct ms; simpl; [done|]. intros ? [? ?]. split; [lia|done]. Qed.

Lemma match_here_length (pos : nat) (c : ascii) (s : string) (m : re_match) :
  match_here pos (String c s) = Some m -> (1 <= String.length (group0 m))%nat.
Proof.
  unfold match_here. intros H.
  destruct (strip_prefix "https://" (String c s)); [|done].
  destruct (match_lazy 0 s0) as [[k g]|]; [|done].
  inversion H; subst. simpl group0. apply take_string_nonempty.
Qed.

Lemma finditer_from_order (s : string) : forall skip pos : nat,
  in_document_order (pos + skip) (finditer_from skip pos s).
Proof.
  induction s as [|c s IH]; intros skip pos; [done|].
  simpl. destruct skip as [|k].
  - destruct (match_here pos (String c s)) as [m|] eqn:Hm.
    + pose proof (match_here_length _ _ _ _ Hm) as Hlen.
      apply match_here_spec in Hm as (Hstart & _ & _).
      simpl. split; [lia|].
      eapply in_document_order_mono; [|apply IH]. lia.
    + eapply in_document_order_mono; [|apply IH]. lia.
  - eapply in_document_order_mono; [|apply IH]. lia.
Qed.

Lemma finditer_from_found (s : string) : forall (skip pos : nat) (m : re_match),
  m ∈ finditer_from skip pos s ->
  is_link (group0 m) (match_num m) /\
  exists before after,
    s = before +:+ group0 m +:+ after /\
    m_start m = (pos + String.length before)%nat.
Proof.
  induction s as [|c s IH]; intros skip pos m Hin.
  { by apply elem_of_nil in Hin. }
  assert (Hrest : forall k, m ∈ finditer_from k (S pos) s ->
    is_link (group0 m) (match_num m) /\
    exists before after,
      String c s = before +:+ group0 m +:+ after /\
      m_start m = (pos + String.length before)%nat).
  { intros k Hk. apply IH in Hk as (? & before & after & -> & ->).
    split; [done|]. exists (String c before), after. split; [done|]. simpl. lia. }
  simpl in Hin. destruct skip as [|k]; [|by eapply Hrest].
  destruct (match_here pos (String c s)) as [m'|] eqn:Hm; [|by eapply Hrest].
  apply elem_of_cons in Hin as [->|Hin]; [|by eapply Hrest].
  apply match_here_spec in Hm as (? & ? & r & Hs).
  split; [done|]. exists "", r. split; [done|]. simpl. lia.
Qed.

Lemma collect_fold_lookup (ms : list re_match) : forall (acc : gmap Z string) (key : Z),
  foldl record_match acc ms !! key =
  match last_match key ms with
  | Some m => Some (group0 m)
  | None => acc !! key
  end.
Proof.
  unfold last_match.
  induction ms as [|m ms IH]; intros acc key; [done|].
  simpl. rewrite IH. case_bool_decide as Hk.
  - destruct (List.filter _ ms) as [|m' l] eqn:Hf.
    + simpl. unfold record_match. rewrite Hk. apply lookup_insert_eq.
    + rewrite last_cons_cons.
      destruct (last (m' :: l)) eqn:Hl; [done|]. by apply last_None in Hl.
  - destruct (last _); [done|].
    unfold record_match. by rewrite lookup_insert_ne.
Qed.

(** ** The monad and the trace *)

Lemma world_eta (w : world) : World (files w) (trace w) = w.
Proof. by destruct w. Qed.

Lemma count_requests_app (t1 t2 : list event) :
  count_requests (t1 ++ t2) = (count_requests t1 + count_requests t2)%nat.
Proof. unfold count_requests. by rewrite List.filter_app, length_app. Qed.


Lemma insert_alter_same (f : list byte -> list byte) (k : string)
    (x : list byte) (m : gmap string (list byte)) :
  <[k := x]> (alter f k m) = <[k := x]> m.
Proof.
  apply map_eq. intros i. destruct (decide (k = i)) as [->|Hne].
  - by rewrite !lookup_insert_eq.
  - by rewrite !lookup_insert_ne, lookup_alter_ne.
Qed.

(** ** download_file *)

Lemma range_retry : range 1 (RETRY_LIMIT + 1) = [1; 2; 3].
Proof. reflexivity. Qed.

Lemma copy_stream_spec (destination : string) (stream : list read_result) :
  forall (w : world) (acc : list byte),
    files w !! destination = Some acc ->
    copy_stream destination stream w =
      (match stream_fault stream with Some exc => Raise exc | None => Ok tt end,
       World (<[destination := acc ++ stream_written stream]> (files w)) (trace w)).
Proof.
  induction stream as [|[chunk|exc] rest IH]; intros w acc Hacc.
  - simpl. rewrite app_nil_r, insert_id, world_eta; done.
  - destruct chunk as [|b chunk].
    + simpl. rewrite app_nil_r, insert_id, world_eta; done.
    + cbn [copy_stream stream_fault stream_written].
      unfold bind, fh_write at 1.
      erewrite IH; cycle 1.
      { cbn [files]. rewrite lookup_alter_eq, Hacc. reflexivity. }
      cbn [files trace]. by rewrite insert_alter_same, <- app_assoc.
  - simpl. unfold raise. rewrite app_nil_r, insert_id, world_eta; done.
Qed.

Lemma attempt_body_spec (e : env) (url destination : string) (w : world) :
  let r := http e (count_requests (trace w)) url in
  attempt_body e url destination w =
    (match attempt_fault r with Some exc => Raise exc | None => Ok tt end,
     World (attempt_files r destination (files w))
           (trace w ++ [HttpGet url (Some destination)])).
Proof.
  unfold attempt_body, bind, urlopen. cbn zeta.
  destruct (http e (count_requests (trace w)) url) as [exc|status stream]; [done|].
  cbn [fst snd attempt_fault attempt_files open_wb files trace].
  case_bool_decide.
  - done.
  - erewrite copy_stream_spec; cycle 1.
    { cbn [files]. apply lookup_insert_eq. }
    cbn [files trace]. by rewrite insert_insert_eq.
Qed.

(** After a caught failure the destination is gone, whether the attempt
    had created it or not. *)
Lemma cleanup_spec {B} (r : open_result) (destination : string) (w : world)
    (t : list event) (k : M B) :
  is_Some (attempt_fault r) ->
  (present <- path_exists destination ;;
   (if present then unlink destination else ret tt) ;;
   k)
    (World (attempt_files r destination (files w)) t) =
  k (World (delete destination (files w)) t).
Proof.
  intros Hf. unfold bind, path_exists, unlink, ret. cbn [files trace].
  case_bool_decide as Hp.
  - f_equal. f_equal. destruct r; cbn [attempt_files]; [done|].
    apply delete_insert_eq.
  - f_equal. f_equal. destruct r; cbn [attempt_files] in *.
    + symmetry. apply delete_id. by apply eq_None_not_Some.
    + exfalso. apply Hp. rewrite lookup_insert_eq. by eexists.
Qed.

(** One turn of the retry loop. *)
Lemma download_attempts_cons (e : env) (url destination : string)
    (attempt : Z) (rest : list Z) (w : world) :
  let r := http e (count_requests (trace w)) url in
  let t1 := trace w ++ [HttpGet url (Some destination)] in
  download_attempts e url destination (attempt :: rest) w =
    match attempt_fault r with
    | None => (Ok tt, World (attempt_files r destination (files w)) t1)
    | Some exc =>
        if caught_by_download exc then
          if bool_decide (attempt = RETRY_LIMIT) then
            (Raise (Exn RuntimeError (MsgFailedDownload url (exn_msg exc))),
             World (delete destination (files w)) t1)
          else
            download_attempts e url destination rest
              (World (delete destination (files w))
                 (t1 ++ [Stderr (MsgRetry attempt RETRY_LIMIT url (exn_msg exc) (2 * attempt));
                         Sleep (2 * attempt)]))
        else (Raise exc, World (attempt_files r destination (files w)) t1)
    end.
Proof.
  cbn zeta. cbn [download_attempts].
  unfold bind at 1. unfold try_except. unfold bind at 1.
  rewrite attempt_body_spec.
  destruct (attempt_fault _) as [exc|] eqn:Hf; [|done].
  destruct (caught_by_download exc); [|done].
  rewrite cleanup_spec by (rewrite Hf; by eexists).
  case_bool_decide; [done|].
  unfold bind, print_err, sleep, emit, ret. cbn [files trace].
  by rewrite <- app_assoc.
Qed.

Lemma attempt_files_other (r : open_result) (destination p : string)
    (fs : gmap string (list byte)) :
  p <> destination -> attempt_files r destination fs !! p = fs !! p.
Proof. intros Hne. destruct r; cbn [attempt_files]; [done|]. by rewrite lookup_insert_ne. Qed.

Lemma attempt_files_success (r : open_result) (destination : string)
    (fs : gmap string (list byte)) :
  attempt_fault r = None -> is_Some (attempt_files r destination fs !! destination).
Proof.
  destruct r; [done|]. intros _. cbn [attempt_files].
  rewrite lookup_insert_eq. by eexists.
Qed.

Ltac forall_events :=
  repeat first
    [ apply List.Forall_nil
    | apply List.Forall_cons; [by cbn [targets]|] ].

(** The retry loop touches no file but its destination, issues requests for
    its destination only, and returns normally only with the destination
    on disk (or after running out of attempts, none of which was the
    last allowed one). *)
Lemma download_attempts_effects (e : env) (url destination : string)
    (attempts : list Z) : forall (w : world),
  let res := download_attempts e url destination attempts w in
  (forall p, p <> destination -> files res.2 !! p = files w !! p) /\
  (exists added, trace res.2 = trace w ++ added /\ Forall (targets destination) added) /\
  (res.1 = Ok tt -> is_Some (files res.2 !! destination) \/ RETRY_LIMIT ∉ attempts).
Proof.
  induction attempts as [|attempt rest IH]; intros w; cbn zeta.
  { simpl. split; [done|]. split.
    - exists []. by rewrite app_nil_r.
    - intros _. right. apply not_elem_of_nil. }
  rewrite download_attempts_cons.
  destruct (attempt_fault _) as [exc|] eqn:Hf.
  - destruct (caught_by_download exc).
    + case_bool_decide as Hlast.
      * cbn [fst snd files trace]. split; [|split].
        -- intros p Hp. by rewrite lookup_delete_ne.
        -- eexists. split; [done|]. forall_events.
        -- done.
      * specialize (IH (World (delete destination (files w))
           ((trace w ++ [HttpGet url (Some destination)]) ++
            [Stderr (MsgRetry attempt RETRY_LIMIT url (exn_msg exc) (2 * attempt));
             Sleep (2 * attempt)]))).
        cbn zeta in IH. destruct IH as (Hframe & (added & Htr & Hadd) & Hok).
        cbn [files trace] in *. split; [|split].
        -- intros p Hp. rewrite Hframe by done. by rewrite lookup_delete_ne.
        -- exists ([HttpGet url (Some destination);
                    Stderr (MsgRetry attempt RETRY_LIMIT url (exn_msg exc) (2 * attempt));
                    Sleep (2 * attempt)] ++ added).
           split; [by rewrite Htr, <- !app_assoc|].
           apply Forall_app. split; [|done]. forall_events.
        -- intros Hres. destruct (Hok Hres) as [?|Hnot]; [by left|].
           right. intros [Heq|?]%elem_of_cons; [by symmetry in Heq|done].
    + cbn [fst snd files trace]. split; [|split].
      * intros p Hp. by apply attempt_files_other.
      * eexists. split; [done|]. forall_events.
      * done.
  - cbn [fst snd files trace]. split; [|split].
    + intros p Hp. by apply attempt_files_other.
    + eexists. split; [done|]. forall_events.
    + intros _. left. by apply attempt_files_success.
Qed.

Lemma download_file_effects (e : env) (url destination : string) (w : world) :
  let res := download_file e url destination w in
  (forall p, p <> destination -> files res.2 !! p = files w !! p) /\
  (exists added, trace res.2 = trace w ++ added /\ Forall (targets destination) added) /\
  (res.1 = Ok tt -> is_Some (files res.2 !! destination)).
Proof.
  cbn zeta. unfold download_file.
  destruct (download_attempts_effects e url destination
              (range 1 (RETRY_LIMIT + 1)) w) as (Hframe & Htr & Hok).
  split; [done|]. split; [done|].
  intros Hres. destruct (Hok Hres) as [?|Hnot]; [done|].
  exfalso. apply Hnot. rewrite range_retry.
  apply list_elem_of_In. right; right; left. reflexivity.
Qed.

Lemma stream_of_chunks (chunks : list (list byte)) :
  Forall (fun chunk => chunk <> []) chunks ->
  stream_fault (map Data chunks) = None /\
  stream_written (map Data chunks) = concat chunks.
Proof.
  induction 1 as [|chunk chunks Hne _ [IHf IHw]]; [done|].
  destruct chunk as [|b chunk]; [done|].
  cbn [map stream_fault stream_written concat]. by rewrite IHf, IHw.
Qed.


(** One more turn of the retry loop, with the count of requests brought
    back to the form [count_requests (trace w) + k]. *)
Ltac next_attempt :=
  rewrite download_attempts_cons; cbn [files trace];
  rewrite ?count_requests_app;
  cbn [count_requests List.filter is_request length];
  rewrite ?Nat.add_0_r, <- ?Nat.add_assoc; cbn [Nat.add].

(** C3.  When the first two attempts end with a caught exception and the
    third is answered with status 200 and a body delivered to its end,
    [download_file] returns normally after exactly three requests (the two
    retries announced and slept for in between, nothing after the third),
    and the destination holds the whole body. *)
Theorem download_file_third_attempt_succeeds (e : env) (url destination : string)
    (w : world) (chunks : list (list byte)) :
  attempt_fails (http e (count_requests (trace w)) url) = true ->
  attempt_fails (http e (count_requests (trace w) + 1) url) = true ->
  http e (count_requests (trace w) + 2) url = Opened 200 (map Data chunks) ->
  Forall (fun chunk => chunk <> []) chunks ->
  exists cause1 cause2,
    download_file e url destination w =
      (Ok tt,
       World (<[destination := concat chunks]> (files w))
         (trace w ++
          [HttpGet url (Some destination);
           Stderr (MsgRetry 1 3 url cause1 2); Sleep 2;
           HttpGet url (Some destination);
           Stderr (MsgRetry 2 3 url cause2 4); Sleep 4;
           HttpGet url (Some destination)])).
Proof.
  intros H0 H1 H2 Hchunks.
  apply stream_of_chunks in Hchunks as [Hfault Hwritten].
  unfold attempt_fails in H0, H1.
  destruct (attempt_fault (http e (count_requests (trace w)) url)) as [x0|] eqn:E0; [|done].
  destruct (attempt_fault (http e (count_requests (trace w) + 1) url)) as [x1|] eqn:E1; [|done].
  exists (exn_msg x0), (exn_msg x1).
  unfold download_file. rewrite range_retry.
  rewrite download_attempts_cons, E0, H0. rewrite bool_decide_eq_false_2 by done.
  next_attempt. rewrite E1, H1. rewrite bool_decide_eq_false_2 by done.
  next_attempt. rewrite H2. cbn [attempt_fault attempt_files].
  rewrite bool_decide_eq_false_2 by (intros Hne; by apply Hne).
  rewrite Hfault, Hwritten.
  f_equal. f_equal.
  - rewrite insert_delete_eq. rewrite insert_delete_eq. done.
  - by rewrite <- !app_assoc.
Qed.



(** A [RuntimeError] that leaves [download_file] is the one of its last
    attempt: all three attempts have failed by then. *)
Lemma download_file_gives_up (e : env) (url destination : string) (w w' : world)
    (exc : exn) :
  download_file e url destination w = (Raise exc, w') ->
  isinstance exc RuntimeError = true ->
  (forall k, (k < 3)%nat ->
     attempt_fails (http e (count_requests (trace w) + k) url) = true) /\
  exists cause, exc = Exn RuntimeError (MsgFailedDownload url cause).
Proof.
  assert (Hcaught : forall x, caught_by_download x = false ->
                              isinstance x RuntimeError = true -> False).
  { intros x Hx Hr. unfold caught_by_download in Hx. rewrite Hr in Hx.
    by rewrite !orb_true_r in Hx. }
  unfold download_file. rewrite range_retry. intros H Hexc.
  rewrite download_attempts_cons in H.
  destruct (attempt_fault (http e (count_requests (trace w)) url)) as [x0|] eqn:E0; [|done].
  destruct (caught_by_download x0) eqn:C0;
    [|injection H as -> _; by destruct (Hcaught _ C0 Hexc)].
  rewrite bool_decide_eq_false_2 in H by done.
  revert H. next_attempt. intros H.
  destruct (attempt_fault (http e (count_requests (trace w) + 1) url)) as [x1|] eqn:E1; [|done].
  destruct (caught_by_download x1) eqn:C1;
    [|injection H as -> _; by destruct (Hcaught _ C1 Hexc)].
  rewrite bool_decide_eq_false_2 in H by done.
  revert H. next_attempt. intros H.
  destruct (attempt_fault (http e (count_requests (trace w) + 2) url)) as [x2|] eqn:E2; [|done].
  destruct (caught_by_download x2) eqn:C2;
    [|injection H as -> _; by destruct (Hcaught _ C2 Hexc)].
  rewrite bool_decide_eq_true_2 in H by done. injection H as <- _.
  split; [|by eexists].
  intros k Hk. unfold attempt_fails.
  destruct k as [|[|[|k]]]; [| | |lia].
  - by rewrite Nat.add_0_r, E0.
  - by rewrite E1.
  - by rewrite E2.
Qed.

(** ** discover_urls and the comprehension of main *)

Lemma isinstance_Exception (exc : exn) : isinstance exc Exception = true.
Proof. destruct exc as [[] msg]; reflexivity. Qed.

Lemma discover_urls_spec (e : env) (w : world) :
  discover_urls e w =
    (discovery (http e (count_requests (trace w)) RECITER_PAGE),
     World (files w) (trace w ++ [HttpGet RECITER_PAGE None])).
Proof.
  unfold discover_urls, bind, urlopen, discovery, lift.
  destruct (http e _ RECITER_PAGE) as [exc|status stream]; [done|].
  cbn [snd]. destruct (read_all stream) as [body|exc]; cbn [mbind outcome_bind]; [|done].
  case_bool_decide; done.
Qed.

Lemma select_missing_spec (surahs : list surah) (w : world) :
  select_missing surahs w = (missing_entries (files w) surahs, w).
Proof.
  induction surahs as [|entry rest IH]; [done|].
  cbn [select_missing missing_entries]. unfold bind, lift at 1.
  destruct (join_audio_dir (filename entry)) as [target|exc]; cbn [mbind outcome_bind]; [|done].
  unfold path_exists at 1. rewrite IH.
  destruct (missing_entries (files w) rest) as [others|exc]; cbn [mbind outcome_bind]; done.
Qed.

(** The entries the comprehension keeps are those of the manifest without
    a file, in the order of the manifest. *)
Lemma missing_entries_filter (fs : gmap string (list byte)) (surahs : list surah) :
  forall missing,
    missing_entries fs surahs = Ok missing ->
    missing = List.filter (fun entry => negb (entry_present fs entry)) surahs /\
    Forall (fun entry => exists name, filename entry = PStr name) surahs.
Proof.
  induction surahs as [|entry rest IH]; intros missing H.
  { simpl in H. injection H as <-. by split. }
  cbn [missing_entries] in H.
  destruct (filename entry) as [| | |name| |] eqn:Hname; try done.
  cbn [join_audio_dir mbind outcome_bind snd] in H.
  destruct (missing_entries fs rest) as [others|exc]; [|done].
  cbn [mbind outcome_bind] in H. injection H as <-.
  destruct (IH others eq_refl) as [-> Hall].
  split; [|constructor; [by eexists|done]].
  cbn [List.filter].
  assert (entry_present fs entry = bool_decide (is_Some (fs !! audio_path name))) as ->.
  { unfold entry_present. by rewrite Hname. }
  by case_bool_decide.
Qed.

Lemma missing_entries_absent (fs : gmap string (list byte)) (surahs : list surah)
    (missing : list surah) (entry : surah) (name : string) :
  missing_entries fs surahs = Ok missing ->
  entry ∈ missing -> filename entry = PStr name ->
  fs !! audio_path name = None.
Proof.
  intros H Hin Hname. apply missing_entries_filter in H as [-> _].
  apply list_elem_of_In, List.filter_In in Hin as [_ Hp].
  unfold entry_present in Hp. rewrite Hname in Hp.
  apply negb_true_iff, bool_decide_eq_false in Hp.
  by apply eq_None_not_Some.
Qed.

Lemma missing_entries_none (fs : gmap string (list byte)) (surahs : list surah) :
  Forall (fun entry => exists name,
            filename entry = PStr name /\ is_Some (fs !! audio_path name)) surahs ->
  missing_entries fs surahs = Ok [].
Proof.
  induction 1 as [|entry rest (name & Hname & Hp) _ IH]; [done|].
  cbn [missing_entries]. rewrite Hname, IH.
  cbn [join_audio_dir mbind outcome_bind snd].
  by rewrite bool_decide_eq_true_2.
Qed.

(** ** The download loop *)

Lemma download_loop_cons (e : env) (url_map : gmap Z string) (total index : nat)
    (entry : surah) (rest : list surah) (w : world) :
  download_loop e url_map total index (entry :: rest) w =
    match url_map !! number entry with
    | None => (Ok (Some 1), World (files w) (trace w ++ [Stderr (MsgNoUrl (number entry))]))
    | Some url =>
        match join_audio_dir (filename entry) with
        | Raise exc => (Raise exc, w)
        | Ok target =>
            match download_file e url (snd target)
                    (World (files w)
                       (trace w ++ [Stdout (MsgProgress index total (fst target) url)])) with
            | (Ok _, w') => download_loop e url_map total (S index) rest w'
            | (Raise exc, w') =>
                if isinstance exc RuntimeError
                then (Ok (Some 1),
                      World (files w')
                        (trace w' ++ [Stderr (MsgErrorDownloading (fst target) (exn_msg exc))]))
                else (Raise exc, w')
            end
        end
    end.
Proof.
  cbn [download_loop]. destruct (url_map !! number entry) as [url|]; [|done].
  unfold bind at 1. unfold lift at 1.
  destruct (join_audio_dir (filename entry)) as [target|exc]; [|done].
  unfold bind at 1. unfold print_out at 1. unfold emit at 1.
  unfold bind at 1. unfold try_except. unfold bind at 1.
  destruct (download_file e url (snd target) _) as [[[]|exc] w']; [done|].
  destruct (isinstance exc RuntimeError); done.
Qed.

Lemma download_loop_app (e : env) (url_map : gmap Z string) (total : nat)
    (pre rest : list surah) : forall (index : nat) (w w1 : world),
  download_loop e url_map total index pre w = (Ok None, w1) ->
  download_loop e url_map total index (pre ++ rest) w =
  download_loop e url_map total (index + length pre) rest w1.
Proof.
  induction pre as [|entry pre IH]; intros index w w1 H.
  { simpl in H. injection H as <-. simpl. by rewrite Nat.add_0_r. }
  rewrite <- app_comm_cons. rewrite download_loop_cons in *.
  destruct (url_map !! number entry) as [url|]; [|done].
  destruct (join_audio_dir (filename entry)) as [target|exc]; [|done].
  destruct (download_file e url (snd target) _) as [[[]|exc] w'].
  - rewrite (IH _ _ _ H). f_equal. simpl. lia.
  - by destruct (isinstance exc RuntimeError).
Qed.

(** A loop that ran to its end removed no file and left the file of each
    of its entries on disk. *)
Lemma download_loop_complete (e : env) (url_map : gmap Z string) (total : nat)
    (missing : list surah) : forall (index : nat) (w w1 : world),
  download_loop e url_map total index missing w = (Ok None, w1) ->
  (forall p, is_Some (files w !! p) -> is_Some (files w1 !! p)) /\
  Forall (fun entry => exists name,
            filename entry = PStr name /\ is_Some (files w1 !! audio_path name)) missing.
Proof.
  induction missing as [|entry rest IH]; intros index w w1 H.
  { simpl in H. injection H as <-. by split. }
  rewrite download_loop_cons in H.
  destruct (url_map !! number entry) as [url|]; [|done].
  destruct (filename entry) as [| | |name| |] eqn:Hname; try done.
  cbn [join_audio_dir fst snd] in H.
  pose proof (download_file_effects e url (audio_path name)
    (World (files w) (trace w ++ [Stdout (MsgProgress index total name url)]))) as Heff.
  cbn zeta in Heff.
  destruct (download_file e url (audio_path name) _) as [[[]|exc] w'];
    [|by destruct (isinstance exc RuntimeError)].
  cbn [fst snd files] in Heff. destruct Heff as (Hframe & _ & Hdest).
  apply IH in H as [Hkeep Hall].
  assert (Hstep : forall p, is_Some (files w !! p) -> is_Some (files w' !! p)).
  { intros p Hp. destruct (decide (p = audio_path name)) as [->|Hne]; [by apply Hdest|].
    by rewrite Hframe. }
  split; [by auto|].
  constructor; [|done]. exists name. split; [done|]. apply Hkeep. by apply Hdest.
Qed.

(** Every request of the loop is for one of its entries. *)
Lemma download_loop_trace (e : env) (url_map : gmap Z string) (total : nat)
    (missing : list surah) : forall (index : nat) (w : world),
  exists added,
    trace (download_loop e url_map total index missing w).2 = trace w ++ added /\
    Forall (request_for missing) added.
Proof.
  induction missing as [|entry rest IH]; intros index w.
  { exists []. simpl. by rewrite app_nil_r. }
  assert (Hweaken : forall added, Forall (request_for rest) added ->
                                  Forall (request_for (entry :: rest)) added).
  { intros added Hall. eapply Forall_impl; [exact Hall|].
    intros [url into| | |]; cbn [request_for]; [|done..].
    intros (en & name & ? & ? & ?). exists en, name. split; [by apply list_elem_of_further|done]. }
  rewrite download_loop_cons.
  destruct (url_map !! number entry) as [url|]; cycle 1.
  { eexists. cbn [snd trace]. split; [done|]. by repeat constructor. }
  destruct (filename entry) as [| | |name| |] eqn:Hname;
    try (exists []; cbn [join_audio_dir snd]; rewrite app_nil_r; by split).
  cbn [join_audio_dir fst snd].
  pose proof (download_file_effects e url (audio_path name)
    (World (files w) (trace w ++ [Stdout (MsgProgress index total name url)]))) as Heff.
  cbn zeta in Heff. destruct Heff as (_ & (added & Htr & Hadd) & _).
  cbn [trace] in Htr.
  assert (Hmine : Forall (request_for (entry :: rest)) added).
  { eapply Forall_impl; [exact Hadd|]. intros [u into| | |]; cbn [targets request_for]; [|done..].
    intros ->. exists entry, name. split; [by apply list_elem_of_here|done]. }
  destruct (download_file e url (audio_path name) _) as [[[]|exc] w'];
    cbn [snd] in Htr.
  - destruct (IH (S index) w') as (added' & Htr' & Hadd').
    exists (Stdout (MsgProgress index total name url) :: added ++ added').
    split.
    + rewrite Htr', Htr, <- !app_assoc. done.
    + constructor; [done|]. apply Forall_app. split; [done|by apply Hweaken].
  - destruct (isinstance exc RuntimeError); cbn [snd trace].
    + exists (Stdout (MsgProgress index total name url) :: added ++
              [Stderr (MsgErrorDownloading name (exn_msg exc))]).
      split; [by rewrite Htr, <- !app_assoc|].
      constructor; [done|]. apply Forall_app. split; [done|]. by repeat constructor.
    + exists (Stdout (MsgProgress index total name url) :: added).
      split; [by rewrite Htr, <- !app_assoc|]. by constructor.
Qed.

Lemma download_loop_code (e : env) (url_map : gmap Z string) (total : nat)
    (missing : list surah) : forall (index : nat) (w w' : world) (code : Z),
  download_loop e url_map total index missing w = (Ok (Some code), w') -> code = 1.
Proof.
  induction missing as [|entry rest IH]; intros index w w' code H; [done|].
  rewrite download_loop_cons in H.
  destruct (url_map !! number entry) as [url|]; [|by injection H].
  destruct (join_audio_dir (filename entry)) as [target|exc]; [|done].
  destruct (download_file e url (snd target) _) as [[[]|exc] w''].
  - by eapply IH.
  - destruct (isinstance exc RuntimeError); [by injection H|done].
Qed.

(** ** main *)

Lemma load_surahs_pure (e : env) (w : world) :
  load_surahs e w = ((load_surahs e w).1, w).
Proof. reflexivity. Qed.

Lemma load_surahs_world (e : env) (w w' : world) :
  (load_surahs e w').1 = (load_surahs e w).1.
Proof. reflexivity. Qed.

(** [main], one decision after the other. *)
Lemma main_unfold (e : env) (w : world) :
  main e w =
    match (load_surahs e w).1 with
    | Raise exc => (Raise exc, w)
    | Ok surahs =>
        match mkdir_raises e with
        | Some exc => (Raise exc, w)
        | None =>
            let t := trace w ++ [HttpGet RECITER_PAGE None] in
            match discovery (http e (count_requests (trace w)) RECITER_PAGE) with
            | Raise exc =>
                (Ok 1, World (files w) (t ++ [Stderr (MsgUnableToDiscover (exn_msg exc))]))
            | Ok url_map =>
                match missing_entries (files w) surahs with
                | Raise exc => (Raise exc, World (files w) t)
                | Ok [] => (Ok 0, World (files w) (t ++ [Stdout MsgAllPresent]))
                | Ok (first :: others) =>
                    let missing := first :: others in
                    match download_loop e url_map (length missing) 1 missing
                            (World (files w) (t ++ [Stdout (MsgDownloading (length missing))])) with
                    | (Ok (Some code), w') => (Ok code, w')
                    | (Ok None, w') =>
                        (Ok 0, World (files w') (trace w' ++ [Stdout MsgCompleted]))
                    | (Raise exc, w') => (Raise exc, w')
                    end
                end
            end
        end
    end.
Proof.
  unfold main. unfold bind at 1. rewrite load_surahs_pure. cbn [fst].
  destruct (load_surahs e w).1 as [surahs|exc]; [|done].
  unfold bind at 1. unfold mkdir.
  destruct (mkdir_raises e) as [exc|]; [done|]. unfold ret at 1.
  unfold bind at 1. unfold try_except. unfold bind at 1.
  rewrite discover_urls_spec.
  destruct (discovery _) as [url_map|exc].
  - unfold ret at 1. unfold bind at 1. rewrite select_missing_spec. cbn [files].
    destruct (missing_entries (files w) surahs) as [[|first others]|exc]; [done| |done].
    cbn zeta. unfold bind at 1. unfold print_out at 1. unfold emit at 1.
    cbn [files trace]. unfold bind at 1.
    destruct (download_loop _ _ _ _ _ _) as [[[code|]|exc] w']; done.
  - rewrite isinstance_Exception. done.
Qed.

(** C1.  When the page is fetched and holds fewer than 114 distinct keys,
    [discover_urls] raises, and [main] prints its diagnostic on stderr and
    returns 1; the page request is the only request of the run and no file
    is touched. *)
Theorem too_few_links_exit_1 (e : env) (w : world) (surahs : list surah)
    (status : Z) (stream : list read_result) (body : list byte) :
  load_surahs e w = (Ok surahs, w) ->
  mkdir_raises e = None ->
  http e (count_requests (trace w)) RECITER_PAGE = Opened status stream ->
  read_all stream = Ok body ->
  (size (collect_urls (decode body)) < 114)%nat ->
  let found := size (collect_urls (decode body)) in
  discover_urls e w =
    (Raise (Exn RuntimeError (MsgTooFewLinks found)),
     World (files w) (trace w ++ [HttpGet RECITER_PAGE None])) /\
  main e w =
    (Ok 1,
     World (files w)
       (trace w ++ [HttpGet RECITER_PAGE None;
                    Stderr (MsgUnableToDiscover (MsgTooFewLinks found))])).
Proof.
  intros Hload Hmkdir Hpage Hread Hfew found.
  assert (Hd : discovery (http e (count_requests (trace w)) RECITER_PAGE) =
               Raise (Exn RuntimeError (MsgTooFewLinks found))).
  { rewrite Hpage. unfold discovery. rewrite Hread. cbn [mbind outcome_bind].
    by rewrite bool_decide_eq_true_2. }
  split.
  - by rewrite discover_urls_spec, Hd.
  - rewrite main_unfold, Hload, Hmkdir. cbn [fst]. cbn zeta. rewrite Hd.
    cbn [exn_msg]. by rewrite <- app_assoc.
Qed.

(** C9.  An exception raised while the manifest is loaded leaves [main]
    uncaught, before anything is printed or requested.  An exception raised
    by [discover_urls] is caught: [main] prints it on stderr and returns
    1. *)
Theorem error_tiers (e : env) (w : world) :
  (forall exc, load_surahs e w = (Raise exc, w) -> main e w = (Raise exc, w)) /\
  (forall surahs exc w_d,
     load_surahs e w = (Ok surahs, w) ->
     mkdir_raises e = None ->
     discover_urls e w = (Raise exc, w_d) ->
     main e w =
       (Ok 1, World (files w_d) (trace w_d ++ [Stderr (MsgUnableToDiscover (exn_msg exc))]))).
Proof.
  split.
  - intros exc Hload. by rewrite main_unfold, Hload.
  - intros surahs exc w_d Hload Hmkdir Hdisc.
    rewrite discover_urls_spec in Hdisc. injection Hdisc as Hd <-.
    rewrite main_unfold, Hload, Hmkdir. cbn [fst]. cbn zeta. by rewrite Hd.
Qed.

Lemma missing_entries_cover (fs : gmap string (list byte)) (surahs missing : list surah) :
  missing_entries fs surahs = Ok missing ->
  Forall (fun entry => exists name,
            filename entry = PStr name /\
            (is_Some (fs !! audio_path name) \/ entry ∈ missing)) surahs.
Proof.
  intros H. apply missing_entries_filter in H as [-> Hstr].
  apply Forall_forall. intros entry Hin.
  rewrite Forall_forall in Hstr. destruct (Hstr entry Hin) as [name Hname].
  exists name. split; [done|].
  destruct (entry_present fs entry) eqn:Hp.
  - left. unfold entry_present in Hp. rewrite Hname in Hp.
    by apply bool_decide_eq_true in Hp.
  - right. apply list_elem_of_In, List.filter_In. split.
    + by apply list_elem_of_In.
    + by rewrite Hp.
Qed.

(** The entry at which the loop stops: the loop returns 1 in the world of
    the failure, whatever entries come after. *)
Lemma download_loop_stops (e : env) (url_map : gmap Z string) (total index : nat)
    (entry : surah) (post : list surah) (w w_end : world) :
  entry_failure e url_map total index entry w w_end ->
  download_loop e url_map total index (entry :: post) w = (Ok (Some 1), w_end).
Proof.
  intros Hfail. rewrite download_loop_cons.
  destruct Hfail as [Hnone|url name exc w' Hurl Hname Hdl Hrt].
  - by rewrite Hnone.
  - rewrite Hurl, Hname. cbn [join_audio_dir fst snd]. by rewrite Hdl, Hrt.
Qed.

Lemma entry_failure_diagnostic (e : env) (url_map : gmap Z string) (total index : nat)
    (entry : surah) (w w_end : world) :
  entry_failure e url_map total index entry w w_end ->
  exists diag, last (trace w_end) = Some (Stderr diag).
Proof. intros [Hnone|url name exc w' _ _ _ _]; eexists; cbn [trace]; apply last_snoc. Qed.

(** C4.  The missing entries are those of the manifest without a file, in
    the order of the manifest.  When the entries before [entry] are all
    downloaded and the turn of [entry] fails (no URL for its number, or
    [download_file] giving up), [main] returns 1 in the world of that
    failure, the diagnostic on stderr being the last thing it did: nothing
    is attempted for the entries after it.  The entries before it have
    their files on disk by then. *)
Theorem main_stops_at_first_failure (e : env) (w : world) (surahs : list surah)
    (url_map : gmap Z string) (w_d : world) (pre : list surah) (entry : surah)
    (post : list surah) (w1 w_end : world) :
  load_surahs e w = (Ok surahs, w) ->
  mkdir_raises e = None ->
  discover_urls e w = (Ok url_map, w_d) ->
  missing_entries (files w) surahs = Ok (pre ++ entry :: post) ->
  download_loop e url_map (length (pre ++ entry :: post)) 1 pre
    (World (files w_d)
       (trace w_d ++ [Stdout (MsgDownloading (length (pre ++ entry :: post)))]))
    = (Ok None, w1) ->
  entry_failure e url_map (length (pre ++ entry :: post)) (1 + length pre) entry w1 w_end ->
  main e w = (Ok 1, w_end) /\
  pre ++ entry :: post =
    List.filter (fun en => negb (entry_present (files w) en)) surahs /\
  (exists diag, last (trace w_end) = Some (Stderr diag)) /\
  Forall (fun en => exists name,
            filename en = PStr name /\ is_Some (files w1 !! audio_path name)) pre.
Proof.
  intros Hload Hmkdir Hdisc Hmissing Hpre Hfail.
  rewrite discover_urls_spec in Hdisc. injection Hdisc as Hd <-.
  cbn [files trace] in Hpre.
  split; [|split; [|split]].
  - rewrite main_unfold, Hload, Hmkdir. cbn [fst]. cbn zeta. rewrite Hd, Hmissing.
    remember (pre ++ entry :: post) as missing eqn:Hm.
    destruct missing as [|first others]; [by destruct pre|].
    rewrite Hm in *.
    rewrite (download_loop_app _ _ _ _ _ _ _ _ Hpre).
    by rewrite (download_loop_stops _ _ _ _ _ post _ _ Hfail).
  - by apply missing_entries_filter in Hmissing as [? _].
  - by eapply entry_failure_diagnostic.
  - by apply download_loop_complete in Hpre as [_ ?].
Qed.

(** What a run that returned 0 has gone through and leaves behind: the
    manifest was loaded, the directory made, and every entry of the
    manifest has its file. *)
Lemma main_success_files (e : env) (w w1 : world) :
  main e w = (Ok 0, w1) ->
  mkdir_raises e = None /\
  exists surahs,
    (load_surahs e w).1 = Ok surahs /\
    Forall (fun entry => exists name,
              filename entry = PStr name /\ is_Some (files w1 !! audio_path name)) surahs.
Proof.
  rewrite main_unfold.
  destruct (load_surahs e w).1 as [surahs|exc]; [|done].
  destruct (mkdir_raises e); [done|]. cbn zeta.
  destruct (discovery _) as [url_map|exc]; [|done].
  destruct (missing_entries (files w) surahs) as [missing|exc] eqn:Hmissing; [|done].
  pose proof (missing_entries_cover _ _ _ Hmissing) as Hcover.
  intros H. split; [done|]. exists surahs. split; [done|].
  destruct missing as [|first others].
  - injection H as <-. cbn [files].
    eapply Forall_impl; [exact Hcover|]. intros entry (name & ? & [?|Hin]).
    + by exists name.
    + by apply elem_of_nil in Hin.
  - destruct (download_loop _ _ _ _ _ _) as [[[code|]|exc] w'] eqn:Hloop; [| |done].
    { apply download_loop_code in Hloop. by simplify_eq. }
    injection H as <-. cbn [files].
    apply download_loop_complete in Hloop as [Hkeep Hdone]. cbn [files] in Hkeep.
    rewrite Forall_forall in Hdone.
    eapply Forall_impl; [exact Hcover|]. intros entry (name & Hname & [?|Hin]).
    + exists name. split; [done|]. by apply Hkeep.
    + destruct (Hdone entry Hin) as (name' & Hname' & ?).
      exists name'. split; [done|done].
Qed.

(** C5, as the code has it.  After a run that returned 0, a second run
    with the same manifest and audio directory and with no file removed in
    between returns 0 without a single download request, provided that its
    own discovery succeeds: the reciter page is fetched again before the
    files are looked at. *)
Theorem second_run_is_a_no_op (e1 e2 : env) (w w1 w2 : world)
    (url_map : gmap Z string) (w_d : world) :
  main e1 w = (Ok 0, w1) ->
  (forall p, is_Some (files w1 !! p) -> is_Some (files w2 !! p)) ->
  manifest_json e2 = manifest_json e1 ->
  mkdir_raises e2 = mkdir_raises e1 ->
  discover_urls e2 w2 = (Ok url_map, w_d) ->
  main e2 w2 =
    (Ok 0, World (files w2) (trace w2 ++ [HttpGet RECITER_PAGE None; Stdout MsgAllPresent])).
Proof.
  intros Hrun Hkeep Hmanifest Hmkdir Hdisc.
  apply main_success_files in Hrun as (Hmk1 & surahs & Hload & Hall).
  rewrite Hmk1 in Hmkdir.
  rewrite discover_urls_spec in Hdisc. injection Hdisc as Hd _.
  assert (Hload2 : (load_surahs e2 w2).1 = Ok surahs).
  { rewrite <- Hload. unfold load_surahs, lift. cbn [fst]. by rewrite Hmanifest. }
  rewrite main_unfold, Hload2, Hmkdir. cbn zeta. rewrite Hd.
  rewrite missing_entries_none.
  - by rewrite <- app_assoc.
  - eapply Forall_impl; [exact Hall|]. intros entry (name & ? & ?).
    exists name. split; [done|]. by apply Hkeep.
Qed.

(** No request of a run is streamed into a file that was there before the
    run; the run makes no request, or starts with the one for the reciter
    page and makes no other request without a destination. *)
Lemma main_requests (e : env) (w : world) (path : string) :
  is_Some (files w !! path) ->
  exists added,
    trace (main e w).2 = trace w ++ added /\
    Forall (never_requested path) added /\
    (added = [] \/
     exists rest, added = HttpGet RECITER_PAGE None :: rest /\
                  Forall (fun ev => forall url, ev <> HttpGet url None) rest).
Proof.
  intros Hpath. rewrite main_unfold.
  destruct (load_surahs e w).1 as [surahs|exc];
    [|exists []; cbn [snd]; rewrite app_nil_r; by auto].
  destruct (mkdir_raises e);
    [exists []; cbn [snd]; rewrite app_nil_r; by auto|].
  cbn zeta.
  destruct (discovery _) as [url_map|exc]; cycle 1.
  { eexists. cbn [snd trace]. rewrite <- app_assoc. split; [done|].
    split; [by repeat constructor|]. right. eexists. split; [done|]. by repeat constructor. }
  destruct (missing_entries (files w) surahs) as [missing|exc] eqn:Hmissing; cycle 1.
  { eexists. cbn [snd trace]. split; [done|].
    split; [by repeat constructor|]. right. eexists. split; [done|]. by repeat constructor. }
  destruct missing as [|first others].
  { eexists. cbn [snd trace]. rewrite <- app_assoc. split; [done|].
    split; [by repeat constructor|]. right. eexists. split; [done|]. by repeat constructor. }
  cbn zeta.
  destruct (download_loop_trace e url_map (length (first :: others)) (first :: others) 1
              (World (files w)
                 ((trace w ++ [HttpGet RECITER_PAGE None]) ++
                  [Stdout (MsgDownloading (length (first :: others)))])))
    as (added & Htr & Hadd).
  cbn [trace] in Htr.
  assert (Hsafe : Forall (fun ev => never_requested path ev /\
                                    forall url, ev <> HttpGet url None) added).
  { eapply Forall_impl; [exact Hadd|].
    intros [url into| | |]; cbn [request_for never_requested]; [|done..].
    intros (entry & name & Hin & Hname & ->). split; [|done].
    intros [= <-].
    pose proof (missing_entries_absent _ _ _ _ _ Hmissing Hin Hname) as Habs.
    rewrite Habs in Hpath. by destruct Hpath. }
  apply Forall_and in Hsafe as [Hsafe1 Hsafe2].
  destruct (download_loop _ _ _ _ _ _) as [[[code|]|exc] w'] eqn:Hloop;
    cbn [snd trace] in *; rewrite Htr, <- ?app_assoc.
  - eexists. split; [done|]. split.
    + by repeat constructor.
    + right. eexists. split; [done|]. by constructor.
  - exists (HttpGet RECITER_PAGE None ::
            Stdout (MsgDownloading (length (first :: others))) :: added ++ [Stdout MsgCompleted]).
    split; [by rewrite <- ?app_assoc|]. split.
    + repeat constructor; try done. apply Forall_app. split; [done|]. by repeat constructor.
    + right. eexists. split; [done|]. constructor; [done|].
      apply Forall_app. split; [done|]. by repeat constructor.
  - eexists. split; [done|]. split.
    + by repeat constructor.
    + right. eexists. split; [done|]. by constructor.
Qed.

(** C6.  An entry of the manifest whose file is there before the run is
    not among the missing entries, and no request of the run is streamed
    into its file; the only request that is not a file download is the one
    for the reciter page, first of the run. *)
Theorem main_skips_present_files (e : env) (w : world) (surahs : list surah)
    (entry : surah) (name : string) :
  load_surahs e w = (Ok surahs, w) ->
  entry ∈ surahs ->
  filename entry = PStr name ->
  is_Some (files w !! audio_path name) ->
  (forall missing, missing_entries (files w) surahs = Ok missing -> entry ∉ missing) /\
  exists added,
    trace (main e w).2 = trace w ++ added /\
    Forall (never_requested (audio_path name)) added /\
    (added = [] \/
     exists rest, added = HttpGet RECITER_PAGE None :: rest /\
                  Forall (fun ev => forall url, ev <> HttpGet url None) rest).
Proof.
  intros _ Hin Hname Hpath. split.
  - intros missing Hmissing Hmem.
    pose proof (missing_entries_absent _ _ _ _ _ Hmissing Hmem Hname) as Habs.
    rewrite Habs in Hpath. by destruct Hpath.
  - by apply main_requests.
Qed.

(** * Further properties *)

(** ** The pattern: shortest matches, no link overlooked *)

Lemma app_empty_r (s : string) : s +:+ "" = s.
Proof. induction s as [|a s IH]; [done|]. rewrite app_cons. by rewrite IH. Qed.

Lemma strip_prefix_app (p r : string) : strip_prefix p (p +:+ r) = Some r.
Proof.
  induction p as [|a p IH]; [by destruct r|].
  rewrite app_cons. simpl. by rewrite bool_decide_eq_true_2.
Qed.

Lemma match_tail_complete (d1 d2 d3 : ascii) (r : string) :
  is_digit d1 = true -> is_digit d2 = true -> is_digit d3 = true ->
  match_tail ("/" +:+ String d1 (String d2 (String d3 ".mp3")) +:+ r) =
    Some (String d1 (String d2 (String d3 "")), r).
Proof.
  intros H1 H2 H3.
  change ("/" +:+ String d1 (String d2 (String d3 ".mp3")) +:+ r)
    with (String "/" (String d1 (String d2 (String d3 (".mp3" +:+ r))))).
  unfold match_tail. rewrite H1, H2, H3.
  rewrite bool_decide_eq_true_2 by done. cbn [andb].
  by rewrite strip_prefix_app.
Qed.

(** The lazy part stops at the first place where the tail matches. *)
Lemma match_lazy_shortest (s : string) : forall (n k : nat) (g : string),
  match_lazy n s = Some (k, g) ->
  forall (mid' : string) (d1 d2 d3 : ascii) (r' : string),
    mid' <> "" ->
    is_digit d1 = true -> is_digit d2 = true -> is_digit d3 = true ->
    s = mid' +:+ "/" +:+ String d1 (String d2 (String d3 ".mp3")) +:+ r' ->
    (k <= n + String.length mid')%nat.
Proof.
  induction s as [|c s IH]; intros n k g H mid' d1 d2 d3 r' Hne H1 H2 H3 Hs; [done|].
  destruct mid' as [|c' mid'']; [done|].
  rewrite app_cons in Hs. injection Hs as <- Hs.
  simpl in H. destruct (is_quote c); [done|].
  destruct (match_tail s) as [[g' r]|] eqn:Ht.
  - injection H as <- _. simpl. lia.
  - destruct mid'' as [|c'' mid3].
    + rewrite app_empty_l in Hs. subst s.
      by rewrite match_tail_complete in Ht.
    + specialize (IH _ _ _ H (String c'' mid3) d1 d2 d3 r' ltac:(done) H1 H2 H3 Hs).
      simpl in *. lia.
Qed.

(** The lazy part finds a tail that is there. *)
Lemma match_lazy_complete (mid : string) : forall (n : nat) (d1 d2 d3 : ascii) (r : string),
  mid <> "" ->
  string_forall not_quote mid = true ->
  is_digit d1 = true -> is_digit d2 = true -> is_digit d3 = true ->
  exists k g,
    match_lazy n (mid +:+ "/" +:+ String d1 (String d2 (String d3 ".mp3")) +:+ r) =
      Some (k, g).
Proof.
  induction mid as [|c mid IH]; intros n d1 d2 d3 r Hne Hq H1 H2 H3; [done|].
  rewrite app_cons. cbn [match_lazy].
  simpl in Hq. apply andb_true_iff in Hq as [Hc Hq].
  unfold not_quote in Hc. apply negb_true_iff in Hc. rewrite Hc.
  destruct (match_tail _) as [[g r0]|] eqn:Ht; [by eauto|].
  destruct mid as [|c' mid'].
  - rewrite app_empty_l in Ht. by rewrite match_tail_complete in Ht.
  - by apply IH.
Qed.

Lemma is_link_text (url : string) (key : Z) :
  is_link url key ->
  exists mid d1 d2 d3,
    mid <> "" /\ string_forall not_quote mid = true /\
    is_digit d1 = true /\ is_digit d2 = true /\ is_digit d3 = true /\
    String.length url = (16 + String.length mid)%nat /\
    forall r, url +:+ r =
      "https://" +:+ (mid +:+ "/" +:+ String d1 (String d2 (String d3 ".mp3")) +:+ r).
Proof.
  intros (mid & d1 & d2 & d3 & ? & ? & ? & ? & ? & -> & _).
  exists mid, d1, d2, d3. repeat split; try done.
  - rewrite !length_app_string. simpl. lia.
  - intros r. by rewrite !app_assoc_string.
Qed.

Lemma match_here_complete (pos : nat) (url : string) (key : Z) (after : string) :
  is_link url key -> exists m, match_here pos (url +:+ after) = Some m.
Proof.
  intros (mid & d1 & d2 & d3 & Hne & Hq & H1 & H2 & H3 & _ & Hs)%is_link_text.
  unfold match_here. rewrite Hs, strip_prefix_app.
  destruct (match_lazy_complete mid 0 d1 d2 d3 after Hne Hq H1 H2 H3) as (k & g & ->).
  by eexists.
Qed.

Lemma match_here_shortest (pos : nat) (s : string) (m : re_match)
    (url : string) (key : Z) (rest : string) :
  match_here pos s = Some m ->
  is_link url key ->
  s = url +:+ rest ->
  (String.length (group0 m) <= String.length url)%nat.
Proof.
  intros Hm (mid' & e1 & e2 & e3 & Hne' & _ & G1 & G2 & G3 & Hlen' & Hs')%is_link_text ->.
  unfold match_here in Hm. rewrite Hs', strip_prefix_app in Hm.
  destruct (match_lazy 0 _) as [[k g]|] eqn:Hl; [|done].
  injection Hm as <-. cbn [group0].
  pose proof (match_lazy_shortest _ _ _ _ Hl mid' e1 e2 e3 rest Hne' G1 G2 G3 eq_refl) as Hk.
  apply match_lazy_spec in Hl
    as (mid & r & d1 & d2 & d3 & -> & ? & ? & ? & ? & ? & -> & Heq).
  rewrite Heq.
  set (u := "https://" +:+ mid +:+ "/" +:+ String d1 (String d2 (String d3 ".mp3"))).
  assert (Hu : "https://" +:+ mid +:+ "/" +:+ String d1 (String d2 (String d3 ".mp3")) +:+ r
               = u +:+ r).
  { subst u. by rewrite !app_assoc_string. }
  assert (Hlen : (scheme_len + (0 + String.length mid) + tail_len)%nat = String.length u).
  { subst u. rewrite !length_app_string. reflexivity. }
  rewrite Hu, (take_string_app_len _ u r) by exact Hlen.
  rewrite <- Hlen, Hlen'. unfold scheme_len, tail_len. lia.
Qed.

(** Every match of [finditer] is the match of the pattern at its own
    start. *)
Lemma finditer_from_here (s : string) : forall (skip pos : nat) (m : re_match),
  m ∈ finditer_from skip pos s ->
  exists before s_m,
    s = before +:+ s_m /\ match_here (pos + String.length before) s_m = Some m.
Proof.
  induction s as [|c s IH]; intros skip pos m Hin.
  { by apply elem_of_nil in Hin. }
  assert (Hrest : forall k, m ∈ finditer_from k (S pos) s ->
    exists before s_m,
      String c s = before +:+ s_m /\ match_here (pos + String.length before) s_m = Some m).
  { intros k Hk. apply IH in Hk as (before & s_m & -> & Hm).
    exists (String c before), s_m. split; [done|].
    simpl. by rewrite Nat.add_succ_r. }
  simpl in Hin. destruct skip as [|k]; [|by eapply Hrest].
  destruct (match_here pos (String c s)) as [m'|] eqn:Hm; [|by eapply Hrest].
  apply elem_of_cons in Hin as [->|Hin]; [|by eapply Hrest].
  exists "", (String c s). split; [done|]. simpl. by rewrite Nat.add_0_r.
Qed.

(** X1.  The lazy quantifier of the pattern makes every match the shortest
    one at its start: no link that is a prefix of a matched URL is shorter
    than the matched URL. *)
Theorem matches_are_shortest (html : string) (m : re_match) (url : string) (key : Z) :
  m ∈ finditer html ->
  is_link url key ->
  string_prefix url (group0 m) ->
  url = group0 m.
Proof.
  intros Hin Hlink [rest Hpre].
  apply finditer_from_here in Hin as (before & s_m & _ & Hm).
  pose proof (match_here_spec _ _ _ Hm) as (_ & _ & r & Hs).
  assert (Hlen : (String.length (group0 m) <= String.length url)%nat).
  { eapply (match_here_shortest _ _ _ url key (rest +:+ r)); [exact Hm|exact Hlink|].
    rewrite Hs, Hpre. by rewrite app_assoc_string. }
  rewrite Hpre, length_app_string in Hlen.
  destruct rest as [|a rest]; [by rewrite Hpre, app_empty_r|].
  simpl in Hlen. lia.
Qed.

Lemma finditer_from_first (before : string) : forall (pos : nat) (url : string)
    (key : Z) (after : string),
  is_link url key ->
  exists m ms,
    finditer_from 0 pos (before +:+ url +:+ after) = m :: ms /\
    (m_start m <= pos + String.length before)%nat.
Proof.
  induction before as [|c before IH]; intros pos url key after Hlink.
  - rewrite app_empty_l.
    destruct (match_here_complete pos url key after Hlink) as [m Hm].
    destruct (url +:+ after) as [|c s] eqn:Hs.
    { unfold match_here in Hm. simpl in Hm. done. }
    cbn [finditer_from]. rewrite Hm.
    apply match_here_spec in Hm as (Hstart & _).
    eexists _, _. split; [done|]. lia.
  - rewrite app_cons. cbn [finditer_from].
    destruct (match_here pos _) as [m|] eqn:Hm.
    + apply match_here_spec in Hm as (Hstart & _).
      eexists _, _. split; [done|]. lia.
    + destruct (IH (S pos) url key after Hlink) as (m & ms & -> & Hle).
      eexists _, _. split; [done|]. simpl. lia.
Qed.

(** X2.  No link of the page is overlooked at the front: when the page
    holds a link, [finditer] has a first match and it starts at or before
    that link, so the mapping is not empty. *)
Theorem first_link_is_found (before url after : string) (key : Z) :
  is_link url key ->
  (exists m ms,
     finditer (before +:+ url +:+ after) = m :: ms /\
     (m_start m <= String.length before)%nat) /\
  collect_urls (before +:+ url +:+ after) <> ∅.
Proof.
  intros Hlink.
  destruct (finditer_from_first before 0 url key after Hlink) as (m & ms & Hf & Hle).
  split; [by exists m, ms|].
  intros Hempty.
  pose proof (collect_fold_lookup (m :: ms) ∅ (match_num m)) as Hlook.
  unfold last_match in Hlook. cbn [List.filter] in Hlook.
  rewrite bool_decide_eq_true_2 in Hlook by done.
  destruct (last (m :: List.filter _ ms)) as [m'|] eqn:Hl;
    [|by apply last_None in Hl].
  unfold collect_urls, finditer in Hempty.
  rewrite Hf in Hempty. by rewrite Hempty, lookup_empty in Hlook.
Qed.

(** ** The pattern: every link of the page is reached *)

Lemma prefix_of_shorter (a : string) : forall (b r r' : string),
  a +:+ r = b +:+ r' ->
  (String.length a <= String.length b)%nat ->
  string_prefix a b.
Proof.
  induction a as [|c a IH]; intros b r r' Heq Hlen.
  - by exists b.
  - destruct b as [|c' b]; [simpl in Hlen; lia|].
    rewrite !app_cons in Heq. injection Heq as <- Heq.
    destruct (IH b r r' Heq) as [t ->]; [simpl in Hlen; lia|].
    by exists t.
Qed.

(** The scan reaches every link: the offset where a link starts lies in a
    match, and a match that starts there is a prefix of the link. *)
Lemma finditer_from_covers (before : string) : forall (skip pos : nat)
    (url : string) (key : Z) (after : string),
  is_link url key ->
  (skip <= String.length before)%nat ->
  exists m,
    m ∈ finditer_from skip pos (before +:+ url +:+ after) /\
    covers m (pos + String.length before) /\
    (m_start m = (pos + String.length before)%nat -> string_prefix (group0 m) url).
Proof.
  induction before as [|c before IH]; intros skip pos url key after Hlink Hskip.
  - simpl in Hskip. assert (skip = 0%nat) as -> by lia.
    rewrite app_empty_l.
    destruct (match_here_complete pos url key after Hlink) as [m Hm].
    pose proof (match_here_shortest _ _ _ url key after Hm Hlink eq_refl) as Hshort.
    destruct (url +:+ after) as [|c s] eqn:Hs.
    { unfold match_here in Hm. simpl in Hm. done. }
    pose proof (match_here_length _ _ _ _ Hm) as Hlen.
    pose proof (match_here_spec _ _ _ Hm) as (Hstart & _ & r & Hr).
    exists m. cbn [finditer_from]. rewrite Hm.
    split; [apply list_elem_of_here|]. split.
    + unfold covers. simpl. lia.
    + intros _. rewrite <- Hs in Hr. symmetry in Hr.
      by eapply prefix_of_shorter.
  - rewrite app_cons. cbn [finditer_from String.length].
    destruct skip as [|k].
    + destruct (match_here pos _) as [m0|] eqn:Hm0.
      * pose proof (match_here_spec _ _ _ Hm0) as (Hstart & _ & _).
        destruct (decide (String.length (group0 m0) - 1 <= String.length before)%nat)
          as [Hle|Hgt].
        -- destruct (IH (String.length (group0 m0) - 1)%nat (S pos) url key after Hlink Hle)
             as (m & Hin & Hcov & Hpre).
           exists m. split; [by apply list_elem_of_further|].
           replace (pos + S (String.length before))%nat
             with (S pos + String.length before)%nat by lia.
           by split.
        -- exists m0. split; [apply list_elem_of_here|]. split.
           ++ unfold covers. lia.
           ++ intros Heq. lia.
      * destruct (IH 0%nat (S pos) url key after Hlink ltac:(lia))
          as (m & Hin & Hcov & Hpre).
        exists m. split; [done|].
        replace (pos + S (String.length before))%nat
          with (S pos + String.length before)%nat by lia.
        by split.
    + destruct (IH k (S pos) url key after Hlink ltac:(simpl in Hskip; lia))
        as (m & Hin & Hcov & Hpre).
      exists m. split; [done|].
      replace (pos + S (String.length before))%nat
        with (S pos + String.length before)%nat by lia.
      by split.
Qed.

Lemma string_forall_app (p : ascii -> bool) (a b : string) :
  string_forall p (a +:+ b) = string_forall p a && string_forall p b.
Proof.
  induction a as [|c a IH]; [done|].
  rewrite app_cons. simpl. by rewrite IH, andb_assoc.
Qed.

Lemma digit_not_quote (d : ascii) : is_digit d = true -> not_quote d = true.
Proof.
  intros Hd. unfold not_quote, is_quote.
  repeat case_bool_decide; subst; try done; by vm_compute in Hd.
Qed.

(** No match holds a quote. *)
Lemma is_link_no_quote (url : string) (key : Z) :
  is_link url key -> string_forall not_quote url = true.
Proof.
  intros (mid & d1 & d2 & d3 & _ & Hmid & H1 & H2 & H3 & -> & _).
  apply digit_not_quote in H1, H2, H3.
  rewrite !string_forall_app, Hmid. simpl. by rewrite H1, H2, H3.
Qed.

Lemma char_inside (pre : string) : forall (g post b : string) (q : ascii) (r : string),
  pre +:+ g +:+ post = b +:+ String q r ->
  (String.length pre <= String.length b < String.length pre + String.length g)%nat ->
  exists g1 g2, g = g1 +:+ String q g2.
Proof.
  induction pre as [|c pre IH]; intros g post b q r Heq Hlen.
  - rewrite app_empty_l in Heq. simpl in Hlen.
    revert g Heq Hlen. induction b as [|c b IHb]; intros g Heq Hlen.
    + destruct g as [|c g]; [simpl in Hlen; lia|].
      rewrite app_cons, app_empty_l in Heq. injection Heq as -> _.
      by exists "", g.
    + destruct g as [|c' g]; [simpl in Hlen; lia|].
      rewrite !app_cons in Heq. injection Heq as -> Heq.
      destruct (IHb g Heq) as (g1 & g2 & ->); [simpl in Hlen; lia|].
      by exists (String c g1), g2.
  - destruct b as [|c' b]; [simpl in Hlen; lia|].
    rewrite !app_cons in Heq. injection Heq as _ Heq.
    apply (IH g post b q r Heq). simpl in Hlen. lia.
Qed.

(** C7.  The matches of the pattern are found from left to right without
    overlap; each is a link of the page (scheme, a part free of quotes, a
    slash, three digits, .mp3) filed under the number its digits spell.
    The scan misses no link: wherever the page holds a link, the offset
    where it starts lies in a match, a match that starts there is a prefix
    of the link, and for a link that follows a quote, as in an href, there
    is such a match at the link's own start.  The mapping built from the
    matches holds, for every key, the whole text of the last match with
    that key. *)
Theorem collect_urls_last_write_wins (html : string) :
  in_document_order 0 (finditer html) /\
  (forall m, m ∈ finditer html ->
     occurs_at html m /\ is_link (group0 m) (match_num m)) /\
  (forall before url after key,
     html = before +:+ url +:+ after ->
     is_link url key ->
     exists m,
       m ∈ finditer html /\
       covers m (String.length before) /\
       (m_start m = String.length before -> string_prefix (group0 m) url)) /\
  (forall before q url after key,
     html = before +:+ String q (url +:+ after) ->
     is_quote q = true ->
     is_link url key ->
     exists m,
       m ∈ finditer html /\
       m_start m = S (String.length before) /\
       string_prefix (group0 m) url) /\
  (forall key, collect_urls html !! key = group0 <$> last_match key (finditer html)).
Proof.
  assert (Hcover : forall before url after key,
     html = before +:+ url +:+ after ->
     is_link url key ->
     exists m,
       m ∈ finditer html /\
       covers m (String.length before) /\
       (m_start m = String.length before -> string_prefix (group0 m) url)).
  { intros before url after key -> Hlink.
    exact (finditer_from_covers before 0 0 url key after Hlink ltac:(lia)). }
  split; [|split; [|split; [exact Hcover|split]]].
  - apply (finditer_from_order html 0 0).
  - intros m Hin. apply finditer_from_found in Hin as (Hlink & before & after & Hs & Hpos).
    split; [|done]. exists before, after. split; [done|]. by rewrite Hpos.
  - intros before q url after key Hhtml Hq Hlink.
    destruct (Hcover (before +:+ String q "") url after key) as (m & Hin & Hcov & Hpre);
      [by rewrite Hhtml, app_assoc_string|done|].
    rewrite length_app_string in Hcov, Hpre. simpl in Hcov, Hpre.
    rewrite Nat.add_1_r in Hcov, Hpre. unfold covers in Hcov.
    destruct (decide (m_start m = S (String.length before))) as [Heq|Hne].
    { exists m. by auto. }
    exfalso.
    pose proof (finditer_from_found _ _ _ _ Hin) as (Hl & pre & post & Hs & Hpos).
    simpl in Hpos.
    destruct (char_inside pre (group0 m) post before q (url +:+ after)) as (g1 & g2 & Hg).
    { by rewrite <- Hs, Hhtml. }
    { lia. }
    apply is_link_no_quote in Hl. rewrite Hg, string_forall_app in Hl.
    apply andb_true_iff in Hl as [_ Hl]. simpl in Hl.
    apply andb_true_iff in Hl as [Hl _]. unfold not_quote in Hl. by rewrite Hq in Hl.
  - intros key. unfold collect_urls. rewrite collect_fold_lookup.
    destruct (last_match key (finditer html)); [done|]. apply lookup_empty.
Qed.

(** ** discover_urls: what a successful discovery returns *)

Lemma is_digit_range (d : ascii) : is_digit d = true -> 0 <= digit_val d <= 9.
Proof.
  unfold is_digit, digit_val. intros [H1 H2]%andb_true_iff.
  apply Nat.leb_le in H1, H2. lia.
Qed.

Lemma is_link_key_range (url : string) (key : Z) : is_link url key -> 0 <= key <= 999.
Proof.
  intros (mid & d1 & d2 & d3 & _ & _ & H1 & H2 & H3 & _ & ->).
  apply is_digit_range in H1, H2, H3. lia.
Qed.

Lemma collect_urls_lookup_link (html : string) (key : Z) (url : string) :
  collect_urls html !! key = Some url -> is_link url key.
Proof.
  unfold collect_urls. rewrite collect_fold_lookup.
  destruct (last_match key (finditer html)) as [m|] eqn:Hl; [|by rewrite lookup_empty].
  intros [= <-]. unfold last_match in Hl.
  apply last_Some_elem_of, list_elem_of_In, List.filter_In in Hl as [Hin Hkey].
  apply bool_decide_eq_true in Hkey. subst key.
  apply list_elem_of_In in Hin.
  by apply finditer_from_found in Hin as [? _].
Qed.

Lemma collect_urls_size (html : string) : (size (collect_urls html) <= 1000)%nat.
Proof.
  rewrite <- (size_dom (D := gset Z)).
  transitivity (size (list_to_set (C := gset Z) (seqZ 0 1000))).
  - apply subseteq_size. intros key Hkey.
    apply elem_of_dom in Hkey as [url Hurl].
    apply collect_urls_lookup_link, is_link_key_range in Hurl.
    apply elem_of_list_to_set, elem_of_seqZ. lia.
  - rewrite size_list_to_set by apply NoDup_seqZ. by rewrite length_seqZ.
Qed.

(** X3.  A successful [discover_urls] has made one request, the one for
    the reciter page, and touched no file; its mapping holds between 114
    and 1000 entries, each a link (scheme, a part free of quotes, a slash,
    three digits, .mp3) filed under the number its digits spell, between 0
    and 999. *)
Theorem discover_urls_postcondition (e : env) (w w' : world) (urls : gmap Z string) :
  discover_urls e w = (Ok urls, w') ->
  w' = World (files w) (trace w ++ [HttpGet RECITER_PAGE None]) /\
  (114 <= size urls <= 1000)%nat /\
  forall key url, urls !! key = Some url -> is_link url key /\ 0 <= key <= 999.
Proof.
  rewrite discover_urls_spec. intros [= Hd <-]. split; [done|].
  unfold discovery in Hd.
  destruct (http e _ RECITER_PAGE) as [exc|status stream]; [done|].
  destruct (read_all stream) as [body|exc]; [|done].
  cbn [mbind outcome_bind] in Hd. case_bool_decide as Hsize; [done|].
  injection Hd as <-. split; [|].
  - split; [lia|apply collect_urls_size].
  - intros key url Hurl. apply collect_urls_lookup_link in Hurl.
    split; [done|]. by eapply is_link_key_range.
Qed.

(** ** download_file: its footprint and its ways out *)

(** X4.  A first attempt answered with status 200 and a body delivered to
    its end is the only one: one request, no message, no sleep, and the
    destination holds the body, whatever it held before. *)
Theorem download_file_first_attempt (e : env) (url destination : string)
    (w : world) (chunks : list (list byte)) :
  http e (count_requests (trace w)) url = Opened 200 (map Data chunks) ->
  Forall (fun chunk => chunk <> []) chunks ->
  download_file e url destination w =
    (Ok tt,
     World (<[destination := concat chunks]> (files w))
       (trace w ++ [HttpGet url (Some destination)])).
Proof.
  intros Hhttp Hchunks.
  apply stream_of_chunks in Hchunks as [Hfault Hwritten].
  unfold download_file. rewrite range_retry, download_attempts_cons, Hhttp.
  cbn [attempt_fault attempt_files].
  rewrite bool_decide_eq_false_2 by (intros Hne; by apply Hne).
  by rewrite Hfault, Hwritten.
Qed.

Lemma stream_cut_short (chunks : list (list byte)) (exc : exn) (rest : list read_result) :
  Forall (fun chunk => chunk <> []) chunks ->
  stream_fault (map Data chunks ++ Fault exc :: rest) = Some exc /\
  stream_written (map Data chunks ++ Fault exc :: rest) = concat chunks.
Proof.
  induction 1 as [|chunk chunks Hne _ [IHf IHw]]; [done|].
  destruct chunk as [|b chunk]; [done|].
  cbn [map app stream_fault stream_written concat]. by rewrite IHf, IHw.
Qed.

(** X5.  An exception that the handler does not catch, raised in the
    middle of the body of the first attempt, leaves [download_file] at
    once: one request, no retry, no sleep, and the part of the body read so
    far stays at the destination. *)
Theorem download_file_uncaught_read_error (e : env) (url destination : string)
    (w : world) (chunks : list (list byte)) (exc : exn) (rest : list read_result) :
  http e (count_requests (trace w)) url =
    Opened 200 (map Data chunks ++ Fault exc :: rest) ->
  Forall (fun chunk => chunk <> []) chunks ->
  caught_by_download exc = false ->
  download_file e url destination w =
    (Raise exc,
     World (<[destination := concat chunks]> (files w))
       (trace w ++ [HttpGet url (Some destination)])).
Proof.
  intros Hhttp Hchunks Hcaught.
  apply (stream_cut_short _ exc rest) in Hchunks as [Hfault Hwritten].
  unfold download_file. rewrite range_retry, download_attempts_cons, Hhttp.
  cbn [attempt_fault attempt_files].
  rewrite bool_decide_eq_false_2 by (intros Hne; by apply Hne).
  by rewrite Hfault, Hwritten, Hcaught.
Qed.

Lemma download_attempts_footprint (e : env) (url destination : string)
    (attempts : list Z) : forall (w : world),
  exists added,
    trace (download_attempts e url destination attempts w).2 = trace w ++ added /\
    Forall (fetches url destination) added /\
    (count_requests added <= length attempts)%nat /\
    (attempts <> [] -> (1 <= count_requests added)%nat).
Proof.
  induction attempts as [|attempt rest IH]; intros w.
  { exists []. simpl. rewrite app_nil_r. repeat split; try done. }
  rewrite download_attempts_cons.
  assert (Hone : exists added,
            trace w ++ [HttpGet url (Some destination)] = trace w ++ added /\
            Forall (fetches url destination) added /\
            (count_requests added <= length (attempt :: rest))%nat /\
            (attempt :: rest <> [] -> (1 <= count_requests added)%nat)).
  { exists [HttpGet url (Some destination)]. split; [done|].
    split; [by repeat constructor|].
    cbn [count_requests List.filter is_request length]. split; [lia|]. intros _. lia. }
  destruct (attempt_fault _) as [exc|]; [|exact Hone].
  destruct (caught_by_download exc); [|exact Hone].
  case_bool_decide; [exact Hone|].
  destruct (IH (World (delete destination (files w))
           ((trace w ++ [HttpGet url (Some destination)]) ++
            [Stderr (MsgRetry attempt RETRY_LIMIT url (exn_msg exc) (2 * attempt));
             Sleep (2 * attempt)]))) as (added & Htr & Hadd & Hle & _).
  cbn [trace] in Htr.
  exists ([HttpGet url (Some destination);
           Stderr (MsgRetry attempt RETRY_LIMIT url (exn_msg exc) (2 * attempt));
           Sleep (2 * attempt)] ++ added).
  split; [by rewrite Htr, <- !app_assoc|].
  split; [apply Forall_app; split; [by repeat constructor|done]|].
  rewrite count_requests_app.
  cbn [count_requests List.filter is_request length] in *. split; [lia|]. intros _. lia.
Qed.

(** X6.  Whatever the network does, [download_file] makes between one and
    three requests, all for its URL and into its destination, and leaves
    every other file as it was; when it returns normally the destination
    is on disk. *)
Theorem download_file_footprint (e : env) (url destination : string) (w : world) :
  (forall p, p <> destination ->
     files (download_file e url destination w).2 !! p = files w !! p) /\
  (exists added,
     trace (download_file e url destination w).2 = trace w ++ added /\
     Forall (fetches url destination) added /\
     (1 <= count_requests added <= 3)%nat) /\
  ((download_file e url destination w).1 = Ok tt ->
   is_Some (files (download_file e url destination w).2 !! destination)).
Proof.
  destruct (download_file_effects e url destination w) as (Hframe & _ & Hok).
  split; [exact Hframe|]. split; [|exact Hok].
  unfold download_file.
  destruct (download_attempts_footprint e url destination (range 1 (RETRY_LIMIT + 1)) w)
    as (added & Htr & Hadd & Hle & Hge).
  exists added. split; [done|]. split; [done|].
  rewrite range_retry in Hle, Hge. simpl in Hle. split; [by apply Hge|lia].
Qed.

Lemma download_attempts_raises (e : env) (url destination : string)
    (attempts : list Z) : forall (w w' : world) (exc : exn),
  download_attempts e url destination attempts w = (Raise exc, w') ->
  caught_by_download exc = false \/
  exists cause, exc = Exn RuntimeError (MsgFailedDownload url cause).
Proof.
  induction attempts as [|attempt rest IH]; intros w w' exc H; [done|].
  rewrite download_attempts_cons in H.
  destruct (attempt_fault _) as [x|]; [|done].
  destruct (caught_by_download x) eqn:Hx.
  - case_bool_decide.
    + injection H as <- _. right. by eexists.
    + by eapply IH.
  - injection H as <- _. by left.
Qed.

(** X7.  [download_file] has two ways of raising: it passes on an
    exception its handler does not catch, or it raises its own
    [RuntimeError] naming the URL, and then all three attempts have
    failed. *)
Theorem download_file_raises (e : env) (url destination : string) (w w' : world)
    (exc : exn) :
  download_file e url destination w = (Raise exc, w') ->
  caught_by_download exc = false \/
  ((exists cause, exc = Exn RuntimeError (MsgFailedDownload url cause)) /\
   forall k, (k < 3)%nat ->
     attempt_fails (http e (count_requests (trace w) + k) url) = true).
Proof.
  intros H.
  destruct (download_attempts_raises _ _ _ _ _ _ _ H) as [?|[cause ->]]; [by left|].
  right. by destruct (download_file_gives_up _ _ _ _ _ _ H eq_refl).
Qed.

(** ** load_surahs: what it accepts and where it stops *)

Lemma load_entries_iff (items : list pyval) : forall surahs,
  load_entries items = Ok surahs <-> Forall2 loads_as items surahs.
Proof.
  induction items as [|item rest IH]; intros surahs.
  { simpl. split.
    - intros [= <-]. constructor.
    - intros H. by inversion H. }
  cbn [load_entries]. split.
  - destruct (getitem item "number") as [raw|] eqn:Hraw; [|done].
    cbn [mbind outcome_bind].
    destruct (py_int raw) as [n|] eqn:Hn; [|done]. cbn [mbind outcome_bind].
    destruct (getitem item "audioFile") as [name|] eqn:Hname; [|done].
    cbn [mbind outcome_bind].
    destruct (load_entries rest) as [tl|] eqn:Htl; [|done]. cbn [mbind outcome_bind].
    intros [= <-]. constructor; [|by apply IH].
    exists raw. by cbn [number filename].
  - intros H. inversion H as [|? s ? tl (raw & Hraw & Hn & Hname) Htl]; subst.
    apply IH in Htl. rewrite Hraw. cbn [mbind outcome_bind].
    rewrite Hn. cbn [mbind outcome_bind]. rewrite Hname. cbn [mbind outcome_bind].
    rewrite Htl. cbn [mbind outcome_bind]. by destruct s.
Qed.

(** X8.  On a manifest that is a list, [load_surahs] returns one entry per
    item, in the order of the list, made of the integer of its number field
    and of its audioFile field as it is; and it returns entries in no other
    case. *)
Theorem load_surahs_entries (e : env) (w : world) (items : list pyval)
    (surahs : list surah) :
  manifest_json e = Ok (PList items) ->
  (load_surahs e w = (Ok surahs, w) <-> Forall2 loads_as items surahs).
Proof.
  intros Hm. unfold load_surahs, lift. rewrite Hm. cbn [mbind outcome_bind py_iter].
  rewrite <- load_entries_iff. split; [by intros [= ->]|by intros ->].
Qed.

Lemma load_entries_first_failure (pre : list pyval) (bad : pyval) (post : list pyval)
    (exc : exn) :
  Forall (fun item => exists s, loads_as item s) pre ->
  load_entries (bad :: post) = Raise exc ->
  load_entries (pre ++ bad :: post) = Raise exc.
Proof.
  intros Hpre Hbad. induction Hpre as [|item pre (s & raw & Hraw & Hn & Hname) _ IH]; [done|].
  rewrite <- app_comm_cons. cbn [load_entries].
  rewrite Hraw. cbn [mbind outcome_bind]. rewrite Hn. cbn [mbind outcome_bind].
  rewrite Hname. cbn [mbind outcome_bind]. by rewrite IH.
Qed.

(** X9.  [load_surahs] stops at the first item it cannot read: a dict
    without the number field, or with a number but without the audioFile
    field, raises the [KeyError] of that field, whatever items follow. *)
Theorem load_surahs_missing_key (e : env) (w : world) (pre : list pyval)
    (kv : list (string * pyval)) (post : list pyval) :
  manifest_json e = Ok (PList (pre ++ PDict kv :: post)) ->
  Forall (fun item => exists s, loads_as item s) pre ->
  (assoc "number" kv = None ->
   load_surahs e w = (Raise (Exn KeyError (Text "number")), w)) /\
  (forall raw n,
     assoc "number" kv = Some raw -> py_int raw = Ok n ->
     assoc "audioFile" kv = None ->
     load_surahs e w = (Raise (Exn KeyError (Text "audioFile")), w)).
Proof.
  intros Hm Hpre. unfold load_surahs, lift. rewrite Hm.
  cbn [mbind outcome_bind py_iter]. split.
  - intros Hnum.
    rewrite (load_entries_first_failure pre _ post (Exn KeyError (Text "number")) Hpre);
      [done|].
    cbn [load_entries getitem]. by rewrite Hnum.
  - intros raw n Hnum Hn Hname.
    rewrite (load_entries_first_failure pre _ post (Exn KeyError (Text "audioFile")) Hpre);
      [done|].
    cbn [load_entries getitem]. rewrite Hnum. cbn [mbind outcome_bind].
    rewrite Hn. cbn [mbind outcome_bind]. by rewrite Hname.
Qed.

(** ** main: its exits *)

Lemma missing_entries_bad_name (fs : gmap string (list byte)) (pre : list surah)
    (entry : surah) (post : list surah) :
  Forall (fun en => is_str (filename en)) pre ->
  ~ is_str (filename entry) ->
  missing_entries fs (pre ++ entry :: post) =
    Raise (type_error "unsupported operand type(s) for /").
Proof.
  intros Hpre Hbad. induction Hpre as [|en pre [name Hname] _ IH].
  - cbn [app missing_entries].
    destruct (filename entry) as [| | |name| |]; try done.
    exfalso. apply Hbad. by exists name.
  - rewrite <- app_comm_cons. cbn [missing_entries]. rewrite Hname.
    cbn [join_audio_dir mbind outcome_bind]. by rewrite IH.
Qed.

(** X10.  The audioFile field is not checked when the manifest is loaded.
    An entry whose file name is not a string makes [main] raise a
    [TypeError] when it looks for the missing files: after the request for
    the reciter page, before any download, and uncaught. *)
Theorem main_non_string_filename (e : env) (w : world) (pre : list surah)
    (entry : surah) (post : list surah) (url_map : gmap Z string) (w_d : world) :
  load_surahs e w = (Ok (pre ++ entry :: post), w) ->
  mkdir_raises e = None ->
  discover_urls e w = (Ok url_map, w_d) ->
  Forall (fun en => is_str (filename en)) pre ->
  ~ is_str (filename entry) ->
  main e w = (Raise (type_error "unsupported operand type(s) for /"), w_d) /\
  w_d = World (files w) (trace w ++ [HttpGet RECITER_PAGE None]).
Proof.
  intros Hload Hmkdir Hdisc Hpre Hbad.
  rewrite discover_urls_spec in Hdisc. injection Hdisc as Hd <-.
  split; [|done].
  rewrite main_unfold, Hload, Hmkdir. cbn [fst]. cbn zeta. rewrite Hd.
  by rewrite missing_entries_bad_name.
Qed.

(** X11.  A manifest that iterates over nothing (an empty list, an empty
    dict, an empty string) is accepted as a manifest without entries: once
    discovery has succeeded, [main] reports that nothing is to be done and
    returns 0. *)
Theorem main_empty_manifest (e : env) (w : world) (data : pyval)
    (url_map : gmap Z string) (w_d : world) :
  manifest_json e = Ok data ->
  py_iter data = Ok [] ->
  mkdir_raises e = None ->
  discover_urls e w = (Ok url_map, w_d) ->
  (data = PList [] \/ data = PDict [] \/ data = PStr "") /\
  load_surahs e w = (Ok [], w) /\
  main e w = (Ok 0, World (files w_d) (trace w_d ++ [Stdout MsgAllPresent])).
Proof.
  intros Hm Hiter Hmkdir Hdisc.
  assert (Hload : load_surahs e w = (Ok [], w)).
  { unfold load_surahs, lift. rewrite Hm. cbn [mbind outcome_bind]. by rewrite Hiter. }
  split; [|split; [exact Hload|]].
  - destruct data as [| | |str|l|kv]; try done.
    + destruct str; [by auto|done].
    + destruct l; [by auto|done].
    + destruct kv; [by auto|done].
  - rewrite discover_urls_spec in Hdisc. injection Hdisc as Hd <-.
    rewrite main_unfold, Hload, Hmkdir. cbn [fst]. cbn zeta. by rewrite Hd.
Qed.

(** X12.  When [main] returns 0, the manifest was loaded and every one of
    its entries has its file on disk. *)
Theorem main_exit_0_all_files (e : env) (w w1 : world) :
  main e w = (Ok 0, w1) ->
  exists surahs,
    load_surahs e w = (Ok surahs, w) /\
    Forall (fun entry => exists name,
              filename entry = PStr name /\ is_Some (files w1 !! audio_path name)) surahs.
Proof.
  intros (_ & surahs & Hload & Hall)%main_success_files.
  exists surahs. split; [|done]. by rewrite load_surahs_pure, Hload.
Qed.

Lemma download_loop_exit (e : env) (url_map : gmap Z string) (total : nat)
    (missing : list surah) : forall (index : nat) (w w' : world) (code : Z),
  download_loop e url_map total index missing w = (Ok (Some code), w') ->
  code = 1 /\ exists diag, last (trace w') = Some (Stderr diag).
Proof.
  induction missing as [|entry rest IH]; intros index w w' code H; [done|].
  rewrite download_loop_cons in H.
  destruct (url_map !! number entry) as [url|].
  - destruct (join_audio_dir (filename entry)) as [target|exc]; [|done].
    destruct (download_file e url (snd target) _) as [[[]|exc] w''].
    + by eapply IH.
    + destruct (isinstance exc RuntimeError); [|done].
      injection H as <- <-. split; [done|]. eexists. cbn [trace]. apply last_snoc.
  - injection H as <- <-. split; [done|]. eexists. cbn [trace]. apply last_snoc.
Qed.

(** X13.  [main] returns 0 or 1 and nothing else.  It has just printed the
    message of its success (nothing to download, or download completed)
    when it returns 0, and a diagnostic on stderr when it returns 1. *)
Theorem main_exit_codes (e : env) (w w' : world) (code : Z) :
  main e w = (Ok code, w') ->
  (code = 0 /\
   (last (trace w') = Some (Stdout MsgAllPresent) \/
    last (trace w') = Some (Stdout MsgCompleted))) \/
  (code = 1 /\ exists diag, last (trace w') = Some (Stderr diag)).
Proof.
  rewrite main_unfold.
  destruct (load_surahs e w).1 as [surahs|exc]; [|done].
  destruct (mkdir_raises e); [done|]. cbn zeta.
  destruct (discovery _) as [url_map|exc]; cycle 1.
  { intros [= <- <-]. right. split; [done|]. eexists. cbn [trace]. apply last_snoc. }
  destruct (missing_entries (files w) surahs) as [[|first others]|exc]; [| |done].
  { intros [= <- <-]. left. split; [done|]. left. cbn [trace]. apply last_snoc. }
  cbn zeta.
  destruct (download_loop _ _ _ _ _ _) as [[[c|]|exc] w''] eqn:Hloop; [| |done].
  - intros [= <- <-]. right. by eapply download_loop_exit.
  - intros [= <- <-]. left. split; [done|]. right. cbn [trace]. apply last_snoc.
Qed.

Lemma download_loop_raises (e : env) (url_map : gmap Z string) (total : nat)
    (missing : list surah) : forall (index : nat) (w w' : world) (exc : exn),
  Forall (fun en => is_str (filename en)) missing ->
  download_loop e url_map total index missing w = (Raise exc, w') ->
  caught_by_download exc = false.
Proof.
  induction missing as [|entry rest IH]; intros index w w' exc Hstr H; [done|].
  apply Forall_cons in Hstr as [[name Hname] Hstr].
  rewrite download_loop_cons in H.
  destruct (url_map !! number entry) as [url|]; [|done].
  rewrite Hname in H. cbn [join_audio_dir fst snd] in H.
  destruct (download_file e url (audio_path name) _) as [[[]|x] w''] eqn:Hdl.
  - by eapply IH.
  - destruct (isinstance x RuntimeError) eqn:Hrt; [done|].
    injection H as <- _.
    destruct (download_attempts_raises _ _ _ _ _ _ _ Hdl) as [?|[cause ->]]; done.
Qed.

(** An exception that [download_file] passes on is the one with which the
    body of one of its attempts ended. *)
Lemma download_attempts_passed_on (e : env) (url destination : string)
    (attempts : list Z) : forall (w w' : world) (exc : exn),
  download_attempts e url destination attempts w = (Raise exc, w') ->
  caught_by_download exc = false ->
  exists k, (count_requests (trace w) <= k)%nat /\
            attempt_fault (http e k url) = Some exc.
Proof.
  induction attempts as [|attempt rest IH]; intros w w' exc H Hexc; [done|].
  rewrite download_attempts_cons in H.
  destruct (attempt_fault _) as [x|] eqn:Hx; [|done].
  destruct (caught_by_download x) eqn:Hc.
  - case_bool_decide.
    + injection H as <- _. done.
    + destruct (IH _ _ _ H Hexc) as (k & Hk & Hfault). cbn [trace] in Hk.
      rewrite !count_requests_app in Hk. exists k. split; [lia|done].
  - injection H as <- _. by eexists.
Qed.

(** The exception with which the download loop ends is one that
    [download_file] passed on for one of the entries. *)
Lemma download_loop_passed_on (e : env) (url_map : gmap Z string) (total : nat)
    (missing : list surah) : forall (index : nat) (w w' : world) (exc : exn),
  Forall (fun en => is_str (filename en)) missing ->
  download_loop e url_map total index missing w = (Raise exc, w') ->
  exists entry name url w0,
    entry ∈ missing /\ filename entry = PStr name /\
    url_map !! number entry = Some url /\
    download_file e url (audio_path name) w0 = (Raise exc, w') /\
    caught_by_download exc = false.
Proof.
  induction missing as [|entry rest IH]; intros index w w' exc Hstr H; [done|].
  apply Forall_cons in Hstr as [[name Hname] Hstr].
  rewrite download_loop_cons in H.
  destruct (url_map !! number entry) as [url|] eqn:Hurl; [|done].
  rewrite Hname in H. cbn [join_audio_dir fst snd] in H.
  destruct (download_file e url (audio_path name) _) as [[[]|x] w''] eqn:Hdl.
  - destruct (IH _ _ _ _ Hstr H) as (en & n & u & w0 & Hin & ? & ? & ? & ?).
    exists en, n, u, w0. split; [by apply list_elem_of_further|done].
  - destruct (isinstance x RuntimeError) eqn:Hrt; [done|].
    injection H as <- <-.
    eexists entry, name, url, _. split; [apply list_elem_of_here|].
    split; [done|]. split; [done|]. split; [exact Hdl|].
    destruct (download_attempts_raises _ _ _ _ _ _ _ Hdl) as [?|[cause ->]]; done.
Qed.

Lemma missing_entries_raises (fs : gmap string (list byte)) (surahs : list surah)
    (exc : exn) :
  missing_entries fs surahs = Raise exc ->
  exc = type_error "unsupported operand type(s) for /" /\
  ~ Forall (fun en => is_str (filename en)) surahs.
Proof.
  induction surahs as [|en rest IH]; intros H; [done|].
  cbn [missing_entries] in H.
  destruct (filename en) as [| | |name| |] eqn:Hname;
    cbn [join_audio_dir mbind outcome_bind] in H;
    try (injection H as <-; split; [done|];
         intros [[nm Hnm] _]%Forall_cons; congruence).
  destruct (missing_entries fs rest) as [others|y];
    cbn [mbind outcome_bind] in H; [done|].
  injection H as ->.
  destruct (IH eq_refl) as [-> Hnot]. split; [done|].
  intros [_ ?]%Forall_cons. by apply Hnot.
Qed.

(** X14.  The exceptions that leave [main] uncaught, and where each comes
    from: the one of loading the manifest, or the one of creating the
    directory, both before anything is requested; the [TypeError] of a file
    name that is not a string, once discovery has succeeded and before any
    download; or, once discovery has succeeded, the exception that
    [download_file] passed on for a missing entry of the manifest, which
    is the one an attempt for that entry's URL ended with and is not of a
    class the handler of [download_file] catches.  In the last two cases
    discovery has returned its mapping: neither a failed discovery nor a
    download that has used up its attempts makes [main] raise. *)
Theorem main_uncaught (e : env) (w w' : world) (exc : exn) :
  main e w = (Raise exc, w') ->
  ((load_surahs e w).1 = Raise exc /\ w' = w) \/
  (mkdir_raises e = Some exc /\ w' = w) \/
  (exists surahs url_map,
     (load_surahs e w).1 = Ok surahs /\
     discover_urls e w = (Ok url_map, w') /\
     ~ Forall (fun en => is_str (filename en)) surahs /\
     exc = type_error "unsupported operand type(s) for /") \/
  (exists surahs url_map w_d entry name url w0 k,
     (load_surahs e w).1 = Ok surahs /\
     discover_urls e w = (Ok url_map, w_d) /\
     entry ∈ surahs /\ filename entry = PStr name /\
     files w !! audio_path name = None /\
     url_map !! number entry = Some url /\
     download_file e url (audio_path name) w0 = (Raise exc, w') /\
     attempt_fault (http e k url) = Some exc /\
     caught_by_download exc = false /\
     isinstance exc RuntimeError = false).
Proof.
  rewrite main_unfold.
  destruct (load_surahs e w).1 as [surahs|x] eqn:Hload; [|intros [= <- <-]; by left].
  destruct (mkdir_raises e) as [x|]; [intros [= <- <-]; right; by left|]. cbn zeta.
  destruct (discovery _) as [url_map|x] eqn:Hd; [|done].
  assert (Hdisc : discover_urls e w =
            (Ok url_map, World (files w) (trace w ++ [HttpGet RECITER_PAGE None]))).
  { by rewrite discover_urls_spec, Hd. }
  destruct (missing_entries (files w) surahs) as [missing|x] eqn:Hmissing.
  - destruct missing as [|first others]; [done|]. cbn zeta.
    destruct (download_loop _ _ _ _ _ _) as [[[c|]|x] w''] eqn:Hloop; [done|done|].
    intros [= <- <-]. right; right; right.
    pose proof (missing_entries_filter _ _ _ Hmissing) as [Hf Hstr].
    assert (Hsub : forall en, en ∈ first :: others -> en ∈ surahs).
    { intros en Hin. rewrite Hf in Hin.
      apply list_elem_of_In, List.filter_In in Hin as [Hin _]. by apply list_elem_of_In. }
    assert (Hstr' : Forall (fun en => is_str (filename en)) (first :: others)).
    { apply Forall_forall. intros en Hin. rewrite Forall_forall in Hstr.
      apply Hstr. by apply Hsub. }
    destruct (download_loop_passed_on _ _ _ _ _ _ _ _ Hstr' Hloop)
      as (entry & name & url & w0 & Hin & Hname & Hurl & Hdl & Hc).
    destruct (download_attempts_passed_on _ _ _ _ _ _ _ Hdl Hc) as (k & _ & Hk).
    eexists surahs, url_map, _, entry, name, url, w0, k.
    split; [done|]. split; [exact Hdisc|]. split; [by apply Hsub|]. split; [done|].
    split; [by eapply missing_entries_absent|]. split; [done|]. split; [done|].
    split; [done|]. split; [done|].
    unfold caught_by_download in Hc. by apply orb_false_iff in Hc as [_ ?].
  - intros [= <- <-]. right; right; left.
    apply missing_entries_raises in Hmissing as [-> Hnot].
    by exists surahs, url_map.
Qed.

(** ** main: what a run leaves alone, and how much it asks of the network *)

Lemma download_loop_frame (e : env) (url_map : gmap Z string) (total : nat)
    (missing : list surah) (p : string) : forall (index : nat) (w : world),
  (forall entry name,
     entry ∈ missing -> filename entry = PStr name -> audio_path name <> p) ->
  files (download_loop e url_map total index missing w).2 !! p = files w !! p.
Proof.
  induction missing as [|entry rest IH]; intros index w Hother; [done|].
  rewrite download_loop_cons.
  destruct (url_map !! number entry) as [url|]; [|done].
  destruct (filename entry) as [| | |name| |] eqn:Hname; try done.
  cbn [join_audio_dir fst snd].
  destruct (download_file_effects e url (audio_path name)
    (World (files w) (trace w ++ [Stdout (MsgProgress index total name url)])))
    as (Hframe & _ & _).
  cbn [files] in Hframe.
  assert (Hp : p <> audio_path name).
  { intros ->. eapply (Hother entry name); [apply list_elem_of_here|exact Hname|done]. }
  specialize (Hframe p Hp).
  destruct (download_file e url (audio_path name) _) as [[[]|exc] w'']; cbn [snd] in Hframe.
  - rewrite IH; [done|]. intros en n Hin. apply Hother. by apply list_elem_of_further.
  - by destruct (isinstance exc RuntimeError).
Qed.

(** X15.  A run neither removes nor rewrites a file that was there before
    it: whatever the manifest and the network, every such file has the
    same content at the end. *)
Theorem main_keeps_existing_files (e : env) (w : world) (p : string) :
  is_Some (files w !! p) ->
  files (main e w).2 !! p = files w !! p.
Proof.
  intros Hp. rewrite main_unfold.
  destruct (load_surahs e w).1 as [surahs|exc]; [|done].
  destruct (mkdir_raises e); [done|]. cbn zeta.
  destruct (discovery _) as [url_map|exc]; [|done].
  destruct (missing_entries (files w) surahs) as [[|first others]|exc] eqn:Hmissing;
    [done| |done].
  cbn zeta.
  pose proof (download_loop_frame e url_map (length (first :: others)) (first :: others) p 1
    (World (files w)
       ((trace w ++ [HttpGet RECITER_PAGE None]) ++
        [Stdout (MsgDownloading (length (first :: others)))]))) as Hframe.
  cbn [files] in Hframe.
  assert (Hother : forall entry name,
            entry ∈ first :: others -> filename entry = PStr name -> audio_path name <> p).
  { intros entry name Hin Hname Heq. rewrite <- Heq in Hp.
    rewrite (missing_entries_absent _ _ _ _ _ Hmissing Hin Hname) in Hp.
    by destruct Hp. }
  specialize (Hframe Hother).
  by destruct (download_loop _ _ _ _ _ _) as [[[c|]|exc] w''].
Qed.

Lemma download_loop_requests (e : env) (url_map : gmap Z string) (total : nat)
    (missing : list surah) : forall (index : nat) (w : world),
  (count_requests (trace (download_loop e url_map total index missing w).2) <=
   count_requests (trace w) + 3 * length missing)%nat.
Proof.
  induction missing as [|entry rest IH]; intros index w.
  { simpl. lia. }
  rewrite download_loop_cons. cbn [length].
  destruct (url_map !! number entry) as [url|]; cycle 1.
  { cbn [snd trace]. rewrite count_requests_app.
    change (count_requests [Stderr (MsgNoUrl (number entry))]) with 0%nat. lia. }
  destruct (join_audio_dir (filename entry)) as [target|exc]; [|cbn [snd]; lia].
  destruct (download_attempts_footprint e url (snd target) (range 1 (RETRY_LIMIT + 1))
    (World (files w) (trace w ++ [Stdout (MsgProgress index total (fst target) url)])))
    as (added & Htr & _ & Hle & _).
  rewrite range_retry in Hle. cbn [length trace] in Htr, Hle.
  fold (download_file e url (snd target)) in Htr.
  assert (Hcount : (count_requests (trace (download_file e url (snd target)
             (World (files w)
                (trace w ++ [Stdout (MsgProgress index total (fst target) url)]))).2) <=
           count_requests (trace w) + 3)%nat).
  { rewrite Htr, !count_requests_app.
    cbn [count_requests List.filter is_request length] in *. lia. }
  destruct (download_file e url (snd target) _) as [[[]|exc] w'']; cbn [snd] in Hcount.
  - specialize (IH (S index) w''). lia.
  - destruct (isinstance exc RuntimeError); cbn [snd trace].
    + rewrite count_requests_app. cbn [count_requests List.filter is_request length]. lia.
    + lia.
Qed.

(** X16.  A run asks the network for the reciter page once and at most
    three times for each entry of the manifest: with n entries it makes at
    most 1 + 3 n requests. *)
Theorem main_request_bound (e : env) (w : world) (surahs : list surah) :
  load_surahs e w = (Ok surahs, w) ->
  (count_requests (trace (main e w).2) <=
   count_requests (trace w) + 1 + 3 * length surahs)%nat.
Proof.
  intros Hload. rewrite main_unfold, Hload. cbn [fst].
  destruct (mkdir_raises e); [simpl; lia|]. cbn zeta.
  destruct (discovery _) as [url_map|exc]; cycle 1.
  { cbn [snd trace]. rewrite !count_requests_app.
    cbn [count_requests List.filter is_request length]. lia. }
  destruct (missing_entries (files w) surahs) as [missing|exc] eqn:Hmissing; cycle 1.
  { cbn [snd trace]. rewrite !count_requests_app.
    cbn [count_requests List.filter is_request length]. lia. }
  assert (Hlen : (length missing <= length surahs)%nat).
  { apply missing_entries_filter in Hmissing as [-> _]. apply List.filter_length_le. }
  destruct missing as [|first others].
  { cbn [snd trace]. rewrite !count_requests_app.
    cbn [count_requests List.filter is_request length]. lia. }
  cbn zeta.
  pose proof (download_loop_requests e url_map (length (first :: others)) (first :: others) 1
    (World (files w)
       ((trace w ++ [HttpGet RECITER_PAGE None]) ++
        [Stdout (MsgDownloading (length (first :: others)))]))) as Hreq.
  cbn [trace] in Hreq. rewrite !count_requests_app in Hreq.
  cbn [count_requests List.filter is_request length] in Hreq, Hlen.
  destruct (download_loop _ _ _ _ _ _) as [[[c|]|exc] w'']; cbn [snd trace] in *.
  - lia.
  - rewrite count_requests_app. cbn [count_requests List.filter is_request length]. lia.
  - lia.
Qed.

End Script.

(** * The properties at work *)

Lemma shifted_page_discovered :
  discovery (page_response (seq 0 114)) = Ok (collect_urls (sample_page (seq 0 114))).
Proof. vm_compute. reflexivity. Qed.

Lemma shifted_page_size : size (collect_urls (sample_page (seq 0 114))) = 114%nat.
Proof. vm_compute. reflexivity. Qed.

Lemma shifted_page_lacks_114 : collect_urls (sample_page (seq 0 114)) !! 114 = None.
Proof. vm_compute. reflexivity. Qed.

(** C10.  Passing the check on 114 distinct keys does not give every
    manifest number a URL: a page with the 114 links 000 to 113 passes it
    and has no link for surah 114, and a run on that page with the file of
    surah 114 missing gets through discovery and ends in the branch that
    reports the missing URL and returns 1. *)
Theorem discovery_may_miss_a_manifest_number
    (int_of_str : string -> option Z) (audio_path : string -> string) :
  exists (html : string) (n : Z),
    (114 <= size (collect_urls html))%nat /\
    1 <= n <= 114 /\
    collect_urls html !! n = None /\
    exists (e : env) (w w_d w' : world),
      discover_urls e w = (Ok (collect_urls html), w_d) /\
      main int_of_str audio_path e w = (Ok 1, w') /\
      last (trace w') = Some (Stderr (MsgNoUrl n)).
Proof.
  exists (sample_page (seq 0 114)), 114.
  split; [by rewrite shifted_page_size|].
  split; [lia|].
  split; [exact shifted_page_lacks_114|].
  exists env_shifted, empty_world.
  eexists. eexists.
  split.
  - rewrite discover_urls_spec. cbn [env_shifted http].
    rewrite shifted_page_discovered. reflexivity.
  - rewrite main_unfold.
    change (load_surahs int_of_str env_shifted empty_world).1
      with (Ok [Surah 114 (PStr "114.mp3")] : outcome (list surah)).
    cbn [env_shifted mkdir_raises http]. cbn zeta.
    rewrite shifted_page_discovered.
    cbn [missing_entries join_audio_dir filename mbind outcome_bind snd empty_world files].
    rewrite lookup_empty.
    rewrite bool_decide_eq_false_2 by (intros [? ?]; done).
    cbn zeta. rewrite download_loop_cons. cbn [number].
    rewrite shifted_page_lacks_114.
    split; [reflexivity|]. cbn [trace]. apply last_snoc.
Qed.

(** Where the handler of [download_file] ends: an exception of another
    class (here an [OSError] that is not a [URLError], raised in the middle
    of the body) is not retried; it leaves [download_file] at once, with
    what was written so far still on disk. *)
Example read_error_is_not_retried :
  download_file env_reset "u" "d" empty_world =
    (Raise (Exn OSError (Text "Connection reset by peer")),
     World {[ "d" := [x49; x44] ]} [HttpGet "u" (Some "d")]).
Proof. vm_compute. reflexivity. Qed.

(** Two links with the same number: the later one stays in the mapping. *)
Example later_link_wins :
  collect_urls
    "<a href='https://a.example/5/001.mp3'>1</a> <a href='https://b.example/5/001.mp3'>1</a>"
  !! 1 = Some "https://b.example/5/001.mp3".
Proof. vm_compute. reflexivity. Qed.

(** The theorems above that carry hypotheses, each at a run where the
    hypotheses hold. *)

Lemma too_few_links_exit_1_witness :
  (size (collect_urls (decode (list_byte_of_string (sample_page [1; 2; 3]%nat)))) < 114)%nat /\
  main sample_int sample_path env_few_links empty_world =
    (Ok 1,
     World ∅ [HttpGet RECITER_PAGE None;
              Stderr (MsgUnableToDiscover (MsgTooFewLinks 3))]).
Proof.
  assert (Hfew : (size (collect_urls
                    (decode (list_byte_of_string (sample_page [1; 2; 3]%nat)))) < 114)%nat).
  { vm_compute. lia. }
  split; [exact Hfew|].
  exact (proj2 (too_few_links_exit_1 sample_int sample_path env_few_links empty_world
                  [Surah 1 (PStr "001.mp3")] 200
                  [Data (list_byte_of_string (sample_page [1; 2; 3]%nat))]
                  (list_byte_of_string (sample_page [1; 2; 3]%nat))
                  eq_refl eq_refl eq_refl eq_refl Hfew)).
Defined.



Example third_attempt_reset_outcome :
  download_file env_reset_third (sample_link 1) (sample_path "001.mp3") empty_world =
    (Raise (Exn OSError (Text "Connection reset by peer")),
     World {[ sample_path "001.mp3" := [x49; x44] ]}
       [HttpGet (sample_link 1) (Some (sample_path "001.mp3"));
        Stderr (MsgRetry 1 3 (sample_link 1) (Text "connection refused") 2); Sleep 2;
        HttpGet (sample_link 1) (Some (sample_path "001.mp3"));
        Stderr (MsgRetry 2 3 (sample_link 1) (Text "connection refused") 4); Sleep 4;
        HttpGet (sample_link 1) (Some (sample_path "001.mp3"))]).
Proof. vm_compute. reflexivity. Qed.

Lemma collect_urls_last_write_wins_witness :
  is_quote "'"%char = true /\
  is_link "https://a.example/5/001.mp3" 1 /\
  exists m,
    m ∈ finditer ("<a href=" +:+ String "'"%char ("https://a.example/5/001.mp3" +:+ "'>1</a>")) /\
    m_start m = S (String.length "<a href=") /\
    string_prefix (group0 m) "https://a.example/5/001.mp3".
Proof.
  assert (Hlink : is_link "https://a.example/5/001.mp3" 1).
  { exists "a.example/5", "0"%char, "0"%char, "1"%char.
    repeat split; reflexivity || discriminate. }
  split; [reflexivity|]. split; [exact Hlink|].
  destruct (collect_urls_last_write_wins
              ("<a href=" +:+ String "'"%char ("https://a.example/5/001.mp3" +:+ "'>1</a>")))
    as (_ & _ & _ & Hquoted & _).
  exact (Hquoted "<a href=" "'"%char "https://a.example/5/001.mp3" "'>1</a>" 1
           eq_refl eq_refl Hlink).
Defined.

Lemma download_file_third_attempt_succeeds_witness :
  attempt_fails (http env_third_time 0 "u") = true /\
  attempt_fails (http env_third_time 1 "u") = true /\
  http env_third_time 2 "u" = Opened 200 (map Data [[x01; x02]; [x03]]) /\
  exists cause1 cause2,
    download_file env_third_time "u" "d" empty_world =
      (Ok tt,
       World (<["d" := concat [[x01; x02]; [x03]]]> (files empty_world))
         (trace empty_world ++
          [HttpGet "u" (Some "d");
           Stderr (MsgRetry 1 3 "u" cause1 2); Sleep 2;
           HttpGet "u" (Some "d");
           Stderr (MsgRetry 2 3 "u" cause2 4); Sleep 4;
           HttpGet "u" (Some "d")])).
Proof.
  split; [reflexivity|]. split; [reflexivity|]. split; [reflexivity|].
  apply (download_file_third_attempt_succeeds env_third_time "u" "d" empty_world
           [[x01; x02]; [x03]]).
  - reflexivity.
  - reflexivity.
  - reflexivity.
  - repeat constructor; discriminate.
Defined.

Lemma main_stops_at_first_failure_witness :
  missing_entries sample_path (files empty_world)
    [Surah 1 (PStr "001.mp3"); Surah 2 (PStr "002.mp3"); Surah 3 (PStr "003.mp3")] =
    Ok ([Surah 1 (PStr "001.mp3")] ++ Surah 2 (PStr "002.mp3") :: [Surah 3 (PStr "003.mp3")]) /\
  collect_urls (sample_page (1%nat :: seq 3 113)) !! 2 = None /\
  main sample_int sample_path env_gap empty_world =
    (Ok 1,
     World {[ sample_path "001.mp3" := [x49; x44; x33] ]}
       [HttpGet RECITER_PAGE None;
        Stdout (MsgDownloading 3);
        Stdout (MsgProgress 1 3 "001.mp3" (sample_link 1));
        HttpGet (sample_link 1) (Some (sample_path "001.mp3"));
        Stderr (MsgNoUrl 2)]).
Proof.
  assert (Hnone : collect_urls (sample_page (1%nat :: seq 3 113)) !! 2 = None).
  { vm_compute. reflexivity. }
  split; [vm_compute; reflexivity|]. split; [exact Hnone|].
  refine (proj1 (main_stops_at_first_failure sample_int sample_path env_gap empty_world
            [Surah 1 (PStr "001.mp3"); Surah 2 (PStr "002.mp3"); Surah 3 (PStr "003.mp3")]
            (collect_urls (sample_page (1%nat :: seq 3 113)))
            (World ∅ [HttpGet RECITER_PAGE None])
            [Surah 1 (PStr "001.mp3")] (Surah 2 (PStr "002.mp3")) [Surah 3 (PStr "003.mp3")]
            (World {[ sample_path "001.mp3" := [x49; x44; x33] ]}
               [HttpGet RECITER_PAGE None;
                Stdout (MsgDownloading 3);
                Stdout (MsgProgress 1 3 "001.mp3" (sample_link 1));
                HttpGet (sample_link 1) (Some (sample_path "001.mp3"))])
            _ _ _ _ _ _ _)).
  - vm_compute. reflexivity.
  - reflexivity.
  - vm_compute. reflexivity.
  - vm_compute. reflexivity.
  - vm_compute. reflexivity.
  - exact (missing_url sample_path env_gap _ 3 2 (Surah 2 (PStr "002.mp3")) _ Hnone).
Defined.

Lemma second_run_is_a_no_op_witness :
  main sample_int sample_path (env_online one_entry) empty_world =
    (Ok 0,
     World {[ sample_path "001.mp3" := [x49; x44; x33] ]}
       [HttpGet RECITER_PAGE None;
        Stdout (MsgDownloading 1);
        Stdout (MsgProgress 1 1 "001.mp3" (sample_link 1));
        HttpGet (sample_link 1) (Some (sample_path "001.mp3"));
        Stdout MsgCompleted]) /\
  main sample_int sample_path (env_online one_entry) world_with_first =
    (Ok 0,
     World (files world_with_first)
       (trace world_with_first ++ [HttpGet RECITER_PAGE None; Stdout MsgAllPresent])).
Proof.
  assert (Hfirst :
    main sample_int sample_path (env_online one_entry) empty_world =
      (Ok 0,
       World {[ sample_path "001.mp3" := [x49; x44; x33] ]}
         [HttpGet RECITER_PAGE None;
          Stdout (MsgDownloading 1);
          Stdout (MsgProgress 1 1 "001.mp3" (sample_link 1));
          HttpGet (sample_link 1) (Some (sample_path "001.mp3"));
          Stdout MsgCompleted])).
  { vm_compute. reflexivity. }
  split; [exact Hfirst|].
  refine (second_run_is_a_no_op sample_int sample_path
            (env_online one_entry) (env_online one_entry)
            empty_world _ world_with_first
            (collect_urls (sample_page (seq 1 114)))
            (World (files world_with_first) [HttpGet RECITER_PAGE None])
            Hfirst _ eq_refl eq_refl _).
  - intros p Hp. exact Hp.
  - vm_compute. reflexivity.
Defined.

(** C5 as stated fails: the second run fetches the reciter page before it
    looks at the files, so with every file in place it still returns 1 when
    that fetch fails. *)
Lemma second_run_offline_returns_1 :
  ~ (forall (e1 e2 : env) (w w1 : world),
       main sample_int sample_path e1 w = (Ok 0, w1) ->
       manifest_json e2 = manifest_json e1 ->
       mkdir_raises e2 = mkdir_raises e1 ->
       (main sample_int sample_path e2 w1).1 = Ok 0).
Proof.
  intros Hclaim.
  assert (Hfirst :
    main sample_int sample_path (env_online one_entry) empty_world =
      (Ok 0, (main sample_int sample_path (env_online one_entry) empty_world).2)).
  { vm_compute. reflexivity. }
  pose proof (Hclaim (env_online one_entry) env_offline empty_world _
                Hfirst eq_refl eq_refl) as Hsecond.
  vm_compute in Hsecond. discriminate Hsecond.
Qed.

Lemma main_skips_present_files_witness :
  Surah 1 (PStr "001.mp3") ∈
    [Surah 1 (PStr "001.mp3"); Surah 2 (PStr "002.mp3"); Surah 3 (PStr "003.mp3")] /\
  is_Some (files world_with_first !! sample_path "001.mp3") /\
  exists added,
    trace (main sample_int sample_path (env_online three_entries) world_with_first).2 =
      trace world_with_first ++ added /\
    Forall (never_requested (sample_path "001.mp3")) added /\
    (added = [] \/
     exists rest, added = HttpGet RECITER_PAGE None :: rest /\
                  Forall (fun ev => forall url, ev <> HttpGet url None) rest).
Proof.
  assert (Hin : Surah 1 (PStr "001.mp3") ∈
            [Surah 1 (PStr "001.mp3"); Surah 2 (PStr "002.mp3"); Surah 3 (PStr "003.mp3")]).
  { apply list_elem_of_here. }
  assert (Hfile : is_Some (files world_with_first !! sample_path "001.mp3")).
  { vm_compute. eexists. reflexivity. }
  split; [exact Hin|]. split; [exact Hfile|].
  exact (proj2 (main_skips_present_files sample_int sample_path
                  (env_online three_entries) world_with_first _ _ "001.mp3"
                  eq_refl Hin eq_refl Hfile)).
Defined.

Lemma error_tiers_witness :
  main sample_int sample_path env_bad_manifest empty_world =
    (Raise (Exn JSONDecodeError (Text "Expecting value")), empty_world) /\
  main sample_int sample_path env_offline empty_world =
    (Ok 1,
     World ∅ ([HttpGet RECITER_PAGE None] ++
              [Stderr (MsgUnableToDiscover (Text "connection refused"))])).
Proof.
  split.
  - exact (proj1 (error_tiers sample_int sample_path env_bad_manifest empty_world)
             _ eq_refl).
  - exact (proj2 (error_tiers sample_int sample_path env_offline empty_world)
             [Surah 1 (PStr "001.mp3")] url_error
             (World ∅ [HttpGet RECITER_PAGE None]) eq_refl eq_refl eq_refl).
Defined.

(** The further properties that carry hypotheses, each at a run where the
    hypotheses hold. *)

Lemma matches_are_shortest_witness :
  ReMatch 9 "https://a.example/5/001.mp3" "001" ∈
    finditer "<a href='https://a.example/5/001.mp3'>1</a>" /\
  "https://a.example/5/001.mp3" =
    group0 (ReMatch 9 "https://a.example/5/001.mp3" "001").
Proof.
  assert (Hin : ReMatch 9 "https://a.example/5/001.mp3" "001" ∈
                  finditer "<a href='https://a.example/5/001.mp3'>1</a>").
  { vm_compute. apply list_elem_of_here. }
  split; [exact Hin|].
  apply (matches_are_shortest "<a href='https://a.example/5/001.mp3'>1</a>" _ _ 1 Hin).
  - exists "a.example/5", "0"%char, "0"%char, "1"%char. repeat split; reflexivity || discriminate.
  - exists "". reflexivity.
Defined.

Lemma first_link_is_found_witness :
  is_link "https://a.example/5/001.mp3" 1 /\
  collect_urls ("<a href='" +:+ "https://a.example/5/001.mp3" +:+ "'>1</a>") <> ∅.
Proof.
  assert (Hlink : is_link "https://a.example/5/001.mp3" 1).
  { exists "a.example/5", "0"%char, "0"%char, "1"%char.
    repeat split; reflexivity || discriminate. }
  split; [exact Hlink|].
  exact (proj2 (first_link_is_found "<a href='" _ "'>1</a>" 1 Hlink)).
Defined.

Lemma discover_urls_postcondition_witness :
  discover_urls (env_online one_entry) empty_world =
    (Ok (collect_urls (sample_page (seq 1 114))), world_after_page) /\
  (114 <= size (collect_urls (sample_page (seq 1 114))) <= 1000)%nat.
Proof.
  assert (Hd : discover_urls (env_online one_entry) empty_world =
                 (Ok (collect_urls (sample_page (seq 1 114))), world_after_page)).
  { vm_compute. reflexivity. }
  split; [exact Hd|].
  exact (proj1 (proj2 (discover_urls_postcondition _ _ _ _ Hd))).
Defined.

Lemma download_file_first_attempt_witness :
  http (env_online one_entry) (count_requests (trace world_after_page)) "u" =
    Opened 200 (map Data [[x49; x44; x33]]) /\
  download_file (env_online one_entry) "u" "d" world_after_page =
    (Ok tt,
     World (<["d" := concat [[x49; x44; x33]]]> (files world_after_page))
       (trace world_after_page ++ [HttpGet "u" (Some "d")])).
Proof.
  split; [reflexivity|].
  apply (download_file_first_attempt (env_online one_entry) "u" "d" world_after_page
           [[x49; x44; x33]]).
  - reflexivity.
  - repeat constructor; discriminate.
Defined.

Lemma download_file_uncaught_read_error_witness :
  caught_by_download (Exn OSError (Text "Connection reset by peer")) = false /\
  download_file env_reset "u" "d" empty_world =
    (Raise (Exn OSError (Text "Connection reset by peer")),
     World (<["d" := concat [[x49; x44]]]> (files empty_world))
       (trace empty_world ++ [HttpGet "u" (Some "d")])).
Proof.
  split; [reflexivity|].
  apply (download_file_uncaught_read_error env_reset "u" "d" empty_world
           [[x49; x44]] _ []).
  - reflexivity.
  - repeat constructor; discriminate.
  - reflexivity.
Defined.

Lemma download_file_raises_witness :
  download_file env_offline "u" "d" empty_world =
    (Raise (Exn RuntimeError (MsgFailedDownload "u" (Text "connection refused"))),
     (download_file env_offline "u" "d" empty_world).2) /\
  (caught_by_download
     (Exn RuntimeError (MsgFailedDownload "u" (Text "connection refused"))) = false \/
   ((exists cause,
       Exn RuntimeError (MsgFailedDownload "u" (Text "connection refused")) =
       Exn RuntimeError (MsgFailedDownload "u" cause)) /\
    forall k, (k < 3)%nat ->
      attempt_fails (http env_offline (count_requests (trace empty_world) + k) "u") = true)).
Proof.
  assert (Hdl : download_file env_offline "u" "d" empty_world =
    (Raise (Exn RuntimeError (MsgFailedDownload "u" (Text "connection refused"))),
     (download_file env_offline "u" "d" empty_world).2)).
  { vm_compute. reflexivity. }
  split; [exact Hdl|].
  exact (download_file_raises env_offline "u" "d" empty_world _ _ Hdl).
Defined.

Lemma load_surahs_entries_witness :
  manifest_json env_few_links =
    Ok (PList [PDict [("number", PInt 1); ("audioFile", PStr "001.mp3")]]) /\
  load_surahs sample_int env_few_links empty_world =
    (Ok [Surah 1 (PStr "001.mp3")], empty_world).
Proof.
  split; [reflexivity|].
  apply (proj2 (load_surahs_entries sample_int env_few_links empty_world
                  [PDict [("number", PInt 1); ("audioFile", PStr "001.mp3")]]
                  [Surah 1 (PStr "001.mp3")] eq_refl)).
  constructor; [|constructor].
  exists (PInt 1). repeat split; reflexivity.
Defined.

Lemma load_surahs_missing_key_witness :
  assoc "audioFile" [("number", PInt 2)] = None /\
  load_surahs sample_int env_missing_key empty_world =
    (Raise (Exn KeyError (Text "audioFile")), empty_world).
Proof.
  split; [reflexivity|].
  refine (proj2 (load_surahs_missing_key sample_int env_missing_key empty_world
                   [PDict [("number", PInt 1); ("audioFile", PStr "001.mp3")]]
                   [("number", PInt 2)] [PNone] eq_refl _)
                (PInt 2) 2 eq_refl eq_refl eq_refl).
  constructor; [|constructor].
  exists (Surah 1 (PStr "001.mp3")), (PInt 1). repeat split; reflexivity.
Defined.

Lemma main_non_string_filename_witness :
  ~ is_str (filename (Surah 2 (PInt 2))) /\
  main sample_int sample_path env_bad_name empty_world =
    (Raise (type_error "unsupported operand type(s) for /"), world_after_page).
Proof.
  assert (Hbad : ~ is_str (filename (Surah 2 (PInt 2)))).
  { intros [name Hname]. discriminate Hname. }
  split; [exact Hbad|].
  refine (proj1 (main_non_string_filename sample_int sample_path env_bad_name empty_world
                   [Surah 1 (PStr "001.mp3")] (Surah 2 (PInt 2)) []
                   (collect_urls (sample_page (seq 1 114))) world_after_page
                   eq_refl eq_refl _ _ Hbad)).
  - vm_compute. reflexivity.
  - constructor; [|constructor]. exists "001.mp3". reflexivity.
Defined.

Lemma main_empty_manifest_witness :
  py_iter (PDict []) = Ok [] /\
  main sample_int sample_path (env_online (Ok (PDict []))) empty_world =
    (Ok 0, World (files world_after_page) (trace world_after_page ++ [Stdout MsgAllPresent])).
Proof.
  split; [reflexivity|].
  refine (proj2 (proj2 (main_empty_manifest sample_int sample_path
                          (env_online (Ok (PDict []))) empty_world (PDict [])
                          (collect_urls (sample_page (seq 1 114))) world_after_page
                          eq_refl eq_refl eq_refl _))).
  vm_compute. reflexivity.
Defined.

Lemma main_exit_0_all_files_witness :
  main sample_int sample_path (env_online one_entry) empty_world =
    (Ok 0, (main sample_int sample_path (env_online one_entry) empty_world).2) /\
  exists surahs,
    load_surahs sample_int (env_online one_entry) empty_world = (Ok surahs, empty_world) /\
    Forall (fun entry => exists name,
              filename entry = PStr name /\
              is_Some (files (main sample_int sample_path (env_online one_entry) empty_world).2
                         !! sample_path name)) surahs.
Proof.
  assert (Hrun : main sample_int sample_path (env_online one_entry) empty_world =
    (Ok 0, (main sample_int sample_path (env_online one_entry) empty_world).2)).
  { vm_compute. reflexivity. }
  split; [exact Hrun|].
  exact (main_exit_0_all_files sample_int sample_path _ _ _ Hrun).
Defined.

Lemma main_exit_codes_witness :
  main sample_int sample_path env_few_links empty_world =
    (Ok 1, (main sample_int sample_path env_few_links empty_world).2) /\
  ((1 = 0 /\
    (last (trace (main sample_int sample_path env_few_links empty_world).2) =
       Some (Stdout MsgAllPresent) \/
     last (trace (main sample_int sample_path env_few_links empty_world).2) =
       Some (Stdout MsgCompleted))) \/
   (1 = 1 /\
    exists diag,
      last (trace (main sample_int sample_path env_few_links empty_world).2) =
        Some (Stderr diag))).
Proof.
  assert (Hrun : main sample_int sample_path env_few_links empty_world =
    (Ok 1, (main sample_int sample_path env_few_links empty_world).2)).
  { vm_compute. reflexivity. }
  split; [exact Hrun|].
  exact (main_exit_codes sample_int sample_path _ _ _ _ Hrun).
Defined.

Lemma main_uncaught_witness :
  main sample_int sample_path env_page_then_reset empty_world =
    (Raise (Exn OSError (Text "Connection reset by peer")),
     (main sample_int sample_path env_page_then_reset empty_world).2) /\
  exists (entry : surah) (name url : string) (w0 : world) (k : nat),
    entry ∈ [Surah 1 (PStr "001.mp3")] /\ filename entry = PStr name /\
    download_file env_page_then_reset url (sample_path name) w0 =
      (Raise (Exn OSError (Text "Connection reset by peer")),
       (main sample_int sample_path env_page_then_reset empty_world).2) /\
    attempt_fault (http env_page_then_reset k url) =
      Some (Exn OSError (Text "Connection reset by peer")).
Proof.
  assert (Hrun : main sample_int sample_path env_page_then_reset empty_world =
    (Raise (Exn OSError (Text "Connection reset by peer")),
     (main sample_int sample_path env_page_then_reset empty_world).2)).
  { vm_compute. reflexivity. }
  split; [exact Hrun|].
  destruct (main_uncaught sample_int sample_path _ _ _ _ Hrun)
    as [[Hload _]|[[Hmk _]|[(surahs & url_map & _ & _ & _ & Hexc)|
        (surahs & url_map & w_d & entry & name & url & w0 & k &
         Hload & _ & Hin & Hname & _ & _ & Hdl & Hk & _)]]].
  - discriminate Hload.
  - discriminate Hmk.
  - discriminate Hexc.
  - injection Hload as <-. exists entry, name, url, w0, k.
    split; [exact Hin|]. split; [exact Hname|]. split; [exact Hdl|exact Hk].
Defined.

Lemma main_keeps_existing_files_witness :
  is_Some (files world_with_first !! sample_path "001.mp3") /\
  files (main sample_int sample_path (env_online three_entries) world_with_first).2
    !! sample_path "001.mp3" =
  files world_with_first !! sample_path "001.mp3".
Proof.
  assert (Hfile : is_Some (files world_with_first !! sample_path "001.mp3")).
  { vm_compute. eexists. reflexivity. }
  split; [exact Hfile|].
  exact (main_keeps_existing_files sample_int sample_path
           (env_online three_entries) world_with_first _ Hfile).
Defined.

Lemma main_request_bound_witness :
  load_surahs sample_int (env_online three_entries) world_with_first =
    (Ok [Surah 1 (PStr "001.mp3"); Surah 2 (PStr "002.mp3"); Surah 3 (PStr "003.mp3")],
     world_with_first) /\
  (count_requests
     (trace (main sample_int sample_path (env_online three_entries) world_with_first).2) <=
   count_requests (trace world_with_first) + 1 +
   3 * length [Surah 1 (PStr "001.mp3"); Surah 2 (PStr "002.mp3"); Surah 3 (PStr "003.mp3")])%nat.
Proof.
  split; [reflexivity|].
  exact (main_request_bound sample_int sample_path (env_online three_entries)
           world_with_first _ eq_refl).
Defined.
